(** * k8s-bake: the render engines of [src/run.ts]

    A shallow embedding of the three render engines (Helm, Kompose,
    Kustomize), of the template path provider, of the kubectl version gate
    and of the [run] orchestrator, followed by the properties the
    specification states about them.

    JavaScript strings are modelled as [string] (sequences of one-byte code
    units), arrays as [list], exceptions as the [Thrown] outcome of a small
    state-and-exception monad, and everything the action obtains from its
    surroundings (inputs, environment, clock, file system, tool resolution,
    process execution) as the fields of a [Host] record. *)

From Stdlib Require Import String Ascii List ZArith Lia Bool.
From Stdlib Require Import DecimalString DecimalZ.
Import ListNotations.

Local Open Scope string_scope.
Local Open Scope list_scope.

Set Implicit Arguments.
Set Warnings "-register-all".

(* ================================================================== *)
(** ** JavaScript strings and arrays *)
(* ================================================================== *)

Module Js.

(** [s.split(sep)] for a one-character separator.  The result is never
    empty: the empty string splits into one empty piece. *)
Fixpoint split (sep : ascii) (s : string) : list string :=
  match s with
  | EmptyString => [EmptyString]
  | String c rest =>
      if Ascii.eqb c sep then EmptyString :: split sep rest
      else match split sep rest with
           | piece :: pieces => String c piece :: pieces
           | [] => [String c EmptyString]
           end
  end.

(** [arr.join(sep)]. *)
Fixpoint join (sep : string) (arr : list string) : string :=
  match arr with
  | [] => EmptyString
  | [x] => x
  | x :: rest => x ++ sep ++ join sep rest
  end.

(** [arr.slice(1)]. *)
Definition slice1 (arr : list string) : list string := tl arr.

(** [arr.push(x)]: the array with [x] appended at its end. *)
Definition push {A : Type} (arr : list A) (x : A) : list A := arr ++ [x].

(** [arr.forEach(f)] where the callback updates one local array [acc]. *)
Definition forEach {A B : Type} (arr : list A)
           (f : list B -> A -> list B) (acc : list B) : list B :=
  fold_left f arr acc.

(** [n.toString()] for an integral number below 10^21: plain decimal
    digits with a leading minus sign for negative values. *)
Definition numberToString (n : Z) : string :=
  NilEmpty.string_of_int (Z.to_int n).

(** ToBoolean (ECMA-262 7.1.2), one instance per kind of value the code
    tests with [!!x], [!x], [if (x)] or [x && ...]. *)
Class ToBoolean (A : Type) := truthy : A -> bool.

#[export] Instance string_ToBoolean : ToBoolean string :=
  fun s => match s with EmptyString => false | _ => true end.

(** [undefined] is falsy; a defined value is tested as itself. *)
#[export] Instance option_ToBoolean {A} `{ToBoolean A} : ToBoolean (option A) :=
  fun o => match o with None => false | Some a => truthy a end.

End Js.
Import Js.

(* ================================================================== *)
(** ** Errors, outcomes and promises *)
(* ================================================================== *)

(** A thrown [Error] object: its [name] and its [message]. *)
Record JsError : Type := mkJsError { errName : string; errMessage : string }.

(** [Error(msg)] *)
Definition Error (msg : string) : JsError := mkJsError "Error" msg.

(** [Error.prototype.toString()]: what [String(err)] yields. *)
Definition errorToString (e : JsError) : string :=
  match errName e, errMessage e with
  | EmptyString, msg => msg
  | name, EmptyString => name
  | name, msg => name ++ ": " ++ msg
  end.

Inductive Outcome (A : Type) : Type :=
| Returned (a : A)
| Thrown (e : JsError).
Arguments Returned {A} a.
Arguments Thrown {A} e.

(** A promise object.  It carries the outcome it settles with, which only
    [await] can observe. *)
Inductive Promise (A : Type) : Type :=
| Settles (o : Outcome A).
Arguments Settles {A} o.

(** A promise is an object, and ToBoolean of an object is [true] whatever
    the promise settles with. *)
#[export] Instance Promise_ToBoolean {A} : ToBoolean (Promise A) :=
  fun _ => true.

(** [util.format(fmt, arg)] for a format holding [%s] placeholders: the
    first [%s] is replaced by the argument's text. *)
Fixpoint format_s (fmt : string) (arg : string) : string :=
  match fmt with
  | String "%" (String "s" rest) => arg ++ rest
  | String c rest => String c (format_s rest arg)
  | EmptyString => EmptyString
  end.

(* ================================================================== *)
(** ** Parsed JSON values, property access and [parseInt] *)
(* ================================================================== *)

(** What [JSON.parse] returns.  The code observes a number only through
    ToString and ToBoolean, so a number is given by the text that
    Number::toString prints for it ([14], [1.5], [1e+21]; [0] for both
    zeros). *)
Inductive json : Type :=
| JNull
| JBool (b : bool)
| JNum (text : string)
| JStr (s : string)
| JArr (items : list json)
| JObj (fields : list (string * json)).

#[export] Instance json_ToBoolean : ToBoolean json :=
  fun v => match v with
           | JNull => false
           | JBool b => b
           | JNum text => negb (String.eqb text "0")
           | JStr s => truthy s
           | JArr _ | JObj _ => true
           end.

Fixpoint lookupField (key : string) (fields : list (string * json)) : option json :=
  match fields with
  | [] => None
  | (k, v) :: rest => if String.eqb k key then Some v else lookupField key rest
  end.

(** The [TypeError] of OrdinaryToPrimitive when neither [toString] nor
    [valueOf] yields a primitive. *)
Definition notPrimitive : JsError :=
  mkJsError "TypeError" "Cannot convert object to primitive value".

(** ToString (ECMA-262 7.1.17) of a parsed value.  An object is printed
    by the [toString] it inherits, unless it has a field of that name:
    a parsed field is never callable, and the inherited [valueOf] returns
    the object itself, so the conversion throws.  An array joins the
    texts of its items, [null] counting as empty, and throws as soon as
    an item does. *)
Fixpoint jsonToString (v : json) : Outcome string :=
  match v with
  | JNull => Returned "null"
  | JBool true => Returned "true"
  | JBool false => Returned "false"
  | JNum text => Returned text
  | JStr s => Returned s
  | JArr items =>
      (fix joinItems (l : list json) : Outcome string :=
         match l with
         | [] => Returned EmptyString
         | item :: rest =>
             match (match item with
                    | JNull => Returned EmptyString
                    | _ => jsonToString item
                    end) with
             | Thrown e => Thrown e
             | Returned first =>
                 match rest with
                 | [] => Returned first
                 | _ => match joinItems rest with
                        | Thrown e => Thrown e
                        | Returned others => Returned (first ++ "," ++ others)%string
                        end
                 end
             end
         end) items
  | JObj fields =>
      match lookupField "toString" fields with
      | Some _ => Thrown notPrimitive
      | None => Returned "[object Object]"
      end
  end.

(** ToString of a value that may be [undefined]. *)
Definition ToString (v : option json) : Outcome string :=
  match v with
  | None => Returned "undefined"
  | Some j => jsonToString j
  end.

(** [v.key] on a value that is neither [null] nor [undefined]: an own
    field of an object, [undefined] on everything else (none of the
    built-in prototypes has a member named [clientVersion], [major] or
    [minor]). *)
Definition getProp (v : json) (key : string) : option json :=
  match v with
  | JObj fields => lookupField key fields
  | _ => None
  end.

Module ParseInt.

(** StrWhiteSpaceChar, as far as one-byte code units go. *)
Definition isWhiteSpace (c : ascii) : bool :=
  let n := nat_of_ascii c in
  ((9 <=? n)%nat && (n <=? 13)%nat) || (n =? 32)%nat || (n =? 160)%nat.

Fixpoint trimStart (s : string) : string :=
  match s with
  | String c rest => if isWhiteSpace c then trimStart rest else s
  | EmptyString => EmptyString
  end.

(** The value of [c] as a digit of the given radix, if it is one. *)
Definition digitValue (radix : Z) (c : ascii) : option Z :=
  let n := Z.of_nat (nat_of_ascii c) in
  let d := if (48 <=? n)%Z && (n <=? 57)%Z then Some (n - 48)%Z
           else if (97 <=? n)%Z && (n <=? 122)%Z then Some (n - 87)%Z
           else if (65 <=? n)%Z && (n <=? 90)%Z then Some (n - 55)%Z
           else None in
  match d with
  | Some v => if (v <? radix)%Z then Some v else None
  | None => None
  end.

(** The longest prefix of radix digits, accumulated left to right;
    [None] while no digit has been read. *)
Fixpoint digits (radix : Z) (s : string) (acc : option Z) : option Z :=
  match s with
  | EmptyString => acc
  | String c rest =>
      match digitValue radix c with
      | Some d =>
          digits radix rest
                 (Some (match acc with Some a => (a * radix + d)%Z | None => d end))
      | None => acc
      end
  end.

(** [parseInt(s)] with no radix argument; [None] is [NaN].  The result
    is kept exact: rounding to a double is monotone and keeps every
    integer up to 2^53 fixed, so the comparisons of the version gate
    are unaffected. *)
Definition parseInt (s : string) : option Z :=
  let s1 := trimStart s in
  let '(sign, s2) := match s1 with
                     | String "-" rest => ((-1)%Z, rest)
                     | String "+" rest => (1%Z, rest)
                     | _ => (1%Z, s1)
                     end in
  let '(radix, s3) := match s2 with
                      | String "0" (String "x" rest) => (16%Z, rest)
                      | String "0" (String "X" rest) => (16%Z, rest)
                      | _ => (10%Z, s2)
                      end in
  match digits radix s3 None with
  | Some v => Some (sign * v)%Z
  | None => None
  end.

(** [x >= k] for a number [x] that may be [NaN]. *)
Definition geq (x : option Z) (k : Z) : bool :=
  match x with
  | Some v => (k <=? v)%Z
  | None => false
  end.

End ParseInt.

(** [s.trim()]: white space removed at both ends. *)
Fixpoint trimEnd (s : string) : string :=
  match s with
  | EmptyString => EmptyString
  | String c rest =>
      match trimEnd rest with
      | EmptyString => if ParseInt.isWhiteSpace c then EmptyString
                       else String c EmptyString
      | kept => String c kept
      end
  end.

Definition trim (s : string) : string := trimEnd (ParseInt.trimStart s).

(* ================================================================== *)
(** ** [path.join] (POSIX) *)
(* ================================================================== *)

Module Path.

(** One step of [normalizeString]: [res] holds the segments kept so
    far, the last one first. *)
Definition step (allowAboveRoot : bool) (res : list string) (seg : string)
  : list string :=
  if String.eqb seg "" || String.eqb seg "." then res
  else if String.eqb seg ".." then
    match res with
    | top :: below =>
        if String.eqb top ".." then (if allowAboveRoot then ".." :: res else res)
        else below
    | [] => if allowAboveRoot then [".."] else []
    end
  else seg :: res.

Definition normalizeString (path : string) (allowAboveRoot : bool) : string :=
  Js.join "/" (rev (fold_left (step allowAboveRoot) (Js.split "/" path) [])).

Fixpoint endsWithSlash (s : string) : bool :=
  match s with
  | EmptyString => false
  | String c EmptyString => Ascii.eqb c "/"
  | String _ rest => endsWithSlash rest
  end.

Definition isAbsolute (s : string) : bool :=
  match s with
  | String "/" _ => true
  | _ => false
  end.

Definition normalize (path : string) : string :=
  match path with
  | EmptyString => "."
  | _ =>
      let trailingSeparator := endsWithSlash path in
      let p := normalizeString path (negb (isAbsolute path)) in
      match p with
      | EmptyString =>
          if isAbsolute path then "/"
          else if trailingSeparator then "./" else "."
      | _ =>
          let p := if trailingSeparator then (p ++ "/")%string else p in
          if isAbsolute path then ("/" ++ p)%string else p
      end
  end.

(** [path.join(a, b)]. *)
Definition join (a b : string) : string :=
  match a, b with
  | EmptyString, EmptyString => "."
  | EmptyString, _ => normalize b
  | _, EmptyString => normalize a
  | _, _ => normalize (a ++ "/" ++ b)
  end.

(** The segments [normalizeString] keeps of a directory path, in order. *)
Definition segments (dir : string) : list string :=
  rev (fold_left (step (negb (isAbsolute dir))) (Js.split "/" dir) []).

(** Every segment followed by a slash. *)
Fixpoint slashed (segs : list string) : string :=
  match segs with
  | [] => EmptyString
  | seg :: rest => seg ++ "/" ++ slashed rest
  end.

(** The text that precedes a file name joined to [dir]: the root slash of
    an absolute path, then every kept segment followed by a slash. *)
Definition under (dir : string) : string :=
  ((if isAbsolute dir then "/" else "") ++ slashed (segments dir))%string.

End Path.

(* ================================================================== *)
(** ** The host: everything [run.ts] imports or reads from outside *)
(* ================================================================== *)

(** [ExecOptions] of [@actions/exec], as far as the code sets it. *)
Record ExecOptions : Type := { silent : bool }.

(** What an awaited [utilities.execCommand] resolves to. *)
Record ExecResult : Type := { stdout : string; stderr : string }.

Record Host : Type := {
  (** the raw value of the variable [core.getInput] reads for a name;
      the empty string when the input is not supplied *)
  host_env_input : string -> string;
  (** [process.env['RUNNER_TEMP']]; [None] is [undefined] *)
  host_RUNNER_TEMP : option string;
  (** the reading the clock gives at its n-th consultation *)
  host_clock : nat -> Z;
  (** whether a path exists on disk *)
  host_exists : string -> bool;
  (** the error with which [stat] fails on a path for another reason than
      the path being absent (a permission denied on the way, say) *)
  host_stat_error : string -> option JsError;
  (** how the three tool look-ups settle *)
  host_helmPath : Outcome string;
  host_kubectlPath : Outcome string;
  host_komposePath : Outcome string;
  (** how a spawned process settles *)
  host_exec : string -> list string -> option ExecOptions -> Outcome ExecResult;
  (** how [fs.writeFileSync] ends *)
  host_writeFile : string -> string -> Outcome unit;
  (** [JSON.parse]; [Thrown] is its [SyntaxError] *)
  host_JSON_parse : string -> Outcome json;
  (** what [util.format] prints after the text of an error given for a
      [%s]: nothing before Node 12, which converts the error with
      [String]; from Node 12 on, which inspects it, the rest of its
      [stack] (the frames below the line that holds the text) and its
      own properties, if it has any *)
  host_stackFrames : JsError -> string
}.

(** The value [core.getInput] returns for a name when it returns: the raw
    value, trimmed. *)
Definition host_input (h : Host) (name : string) : string :=
  trim (host_env_input h name).

(** What the action does to its surroundings, in order. *)
Inductive Event : Type :=
| EConsoleLog (msg : string)
| ECoreDebug (msg : string)
| EExec (tool : string) (args : list string) (options : option ExecOptions)
| EWriteFile (path : string) (data : string)
| ESetOutput (name : string) (value : string)
| ESetFailed (msg : string).

Record State : Type := {
  clockReads : nat;       (** how often the clock has been consulted *)
  trace : list Event      (** the events so far, oldest first *)
}.

Definition initial : State := {| clockReads := 0; trace := [] |}.

(* ================================================================== *)
(** ** The monad of sequential code that may throw *)
(* ================================================================== *)

Definition Action (A : Type) : Type := State -> Outcome A * State.

Definition ret {A} (a : A) : Action A := fun s => (Returned a, s).

Definition throw {A} (e : JsError) : Action A := fun s => (Thrown e, s).

Definition bind {A B} (c : Action A) (k : A -> Action B) : Action B :=
  fun s => match c s with
           | (Returned a, s') => k a s'
           | (Thrown e, s') => (Thrown e, s')
           end.

Notation "x <- c ;; k" := (bind c (fun x => k))
  (at level 61, c at next level, right associativity).
Notation "c ;;; k" := (bind c (fun _ => k))
  (at level 61, right associativity).

(** [try { body } catch (err) { handler(err) }] *)
Definition tryCatch {A} (body : Action A) (handler : JsError -> Action A)
  : Action A :=
  fun s => match body s with
           | (Returned a, s') => (Returned a, s')
           | (Thrown e, s') => handler e s'
           end.

(** [await p] *)
Definition await {A} (p : Promise A) : Action A :=
  fun s => (match p with Settles o => o end, s).

(** [await f(...)] for a call [f(...)] that acts before it returns its
    promise. *)
Definition awaiting {A} (call : Action (Promise A)) : Action A :=
  p <- call ;; await p.

(** An expression that only returns or throws. *)
Definition evaluate {A} (o : Outcome A) : Action A := fun s => (o, s).

Definition emit (ev : Event) : Action unit :=
  fun s => (Returned tt, {| clockReads := clockReads s; trace := trace s ++ [ev] |}).

(* ================================================================== *)
(** ** The collaborators, as [run.ts] calls them *)
(* ================================================================== *)

Module core.

(** [core.getInput(name, {required})]: the raw value is tested, the
    trimmed value is returned. *)
Definition getInput (h : Host) (name : string) (required : bool) : Action string :=
  let val := host_env_input h name in
  if required && negb (truthy val)
  then throw (Error ("Input required and not supplied: " ++ name)%string)
  else ret (trim val).

Definition debug (msg : string) : Action unit := emit (ECoreDebug msg).

(** [core.log(msg)]: [@actions/core] exports [debug], [info], [warning]
    and [error], but no [log]; calling the missing member throws. *)
Definition log (msg : string) : Action unit :=
  throw (mkJsError "TypeError" "core.log is not a function").

Definition setOutput (name value : string) : Action unit :=
  emit (ESetOutput name value).

(** [core.setFailed(err)]: the failure message is the error's text. *)
Definition setFailed (err : JsError) : Action unit :=
  emit (ESetFailed (errorToString err)).

End core.

Module console.
Definition log (msg : string) : Action unit := emit (EConsoleLog msg).
End console.

Module ioUtil.
(** [exists(fsPath)] of [@actions/io/lib/io-util] is declared
    [async function exists(fsPath: string): Promise<boolean>]: the call
    returns a promise, which resolves with the answer and rejects when
    [stat] fails for another reason than the path being absent.  The
    development follows the Node versions before 15, on which a
    rejection nobody handles is reported by a warning and the program
    goes on; from Node 15 on such a rejection ends the process, at a
    moment the program does not determine. *)
Definition exists_ (h : Host) (fsPath : string) : Promise bool :=
  Settles (match host_stat_error h fsPath with
           | Some err => Thrown err
           | None => Returned (host_exists h fsPath)
           end).
End ioUtil.

Module fs.
Definition writeFileSync (h : Host) (path data : string) : Action unit :=
  emit (EWriteFile path data) ;;;
  fun s => (host_writeFile h path data, s).
End fs.

Module JSON.
Definition parse (h : Host) (text : string) : Action json :=
  fun s => (host_JSON_parse h text, s).
End JSON.

Module util.
(** [util.format(fmt, err)] with an error for the [%s]: the error's
    text, followed by what the Node version at hand prints after it. *)
Definition format_err (h : Host) (fmt : string) (err : JsError) : string :=
  format_s fmt (errorToString err ++ host_stackFrames h err).
End util.

Module utilities.

(** Modelled from the spec: [utilities.getCurrentTime] is not among the
    sources; the spec calls its result the timestamp of the baked
    manifest path.  It is the host clock's next reading. *)
Definition getCurrentTime (h : Host) : Action Z :=
  fun s => (Returned (host_clock h (clockReads s)),
            {| clockReads := S (clockReads s); trace := trace s |}).

(** Modelled from the spec: [utilities.execCommand] is not among the
    sources; the spec gives it the contract
    [run(executable, args, options) -> {stdout, stderr}].  The call
    spawns the process and returns the promise of its result. *)
Definition execCommand (h : Host) (tool : string) (args : list string)
           (options : option ExecOptions) : Action (Promise ExecResult) :=
  emit (EExec tool args options) ;;;
  ret (Settles (host_exec h tool args options)).

End utilities.

(** Modelled from the spec: [getHelmPath] of [helm-util] is not among the
    sources; the spec only says that it resolves the Helm executable.  It
    returns the promise the host settles. *)
Definition getHelmPath (h : Host) : Promise string := Settles (host_helmPath h).

(** Modelled from the spec: [getKubectlPath] of [kubectl-util] is not among
    the sources; the spec only says that it resolves the kubectl
    executable.  It returns the promise the host settles. *)
Definition getKubectlPath (h : Host) : Promise string := Settles (host_kubectlPath h).

(** Modelled from the spec: [getKomposePath] of [kompose-util] is not among
    the sources; the spec only says that it resolves the Kompose
    executable.  It returns the promise the host settles. *)
Definition getKomposePath (h : Host) : Promise string := Settles (host_komposePath h).

(* ================================================================== *)
(** ** [abstract class RenderEngine] *)
(* ================================================================== *)

Module RenderEngine.

(** [getTemplatePath]: the clock is consulted only once the scratch
    directory has been found truthy ([!!tempDirectory]). *)
Definition getTemplatePath (h : Host) : Action string :=
  let tempDirectory := host_RUNNER_TEMP h in
  match tempDirectory with
  | Some dir =>
      if truthy tempDirectory then
        now <- utilities.getCurrentTime h ;;
        ret (Path.join dir ("baked-template-" ++ numberToString now ++ ".yaml")%string)
      else throw (Error "Unable to create temp directory.")
  | None => throw (Error "Unable to create temp directory.")
  end.

End RenderEngine.

(* ================================================================== *)
(** ** [class HelmRenderEngine] *)
(* ================================================================== *)

(** [NameValuePair] of [helm-util], as the code fills it. *)
Record NameValuePair : Type := { name : string; value : string }.

Definition LF : ascii := "010"%char.

Module HelmRenderEngine.

(** [getOverrideValues].  [overrideInput[0]] always exists, since [split]
    never returns an empty array; the default of [hd] is never read. *)
Definition getOverrideValues (overrides : list string) : list NameValuePair :=
  let overrideValues : list NameValuePair := [] in
  Js.forEach overrides
    (fun overrideValues arg =>
       let overrideInput := Js.split ":" arg in
       let overrideName := hd EmptyString overrideInput in
       let overrideValue := Js.join ":" (Js.slice1 overrideInput) in
       Js.push overrideValues {| name := overrideName; value := overrideValue |})
    overrideValues.

Definition getTemplateArgs (h : Host) : Action (list string) :=
  releaseName <- core.getInput h "releaseName" false ;;
  chartPath <- core.getInput h "helmChart" true ;;
  let args : list string := [] in
  let args := Js.push args "template" in
  let args := Js.push args chartPath in
  let args := if truthy releaseName
              then Js.push (Js.push args "--name") releaseName
              else args in
  overrideFilesInput <- core.getInput h "overrideFiles" false ;;
  args <- (if truthy overrideFilesInput then
             core.debug "Adding overrides file inputs" ;;;
             let overrideFiles := Js.split LF overrideFilesInput in
             if (0 <? length overrideFiles)%nat then
               ret (Js.forEach overrideFiles
                      (fun args file => Js.push (Js.push args "-f") file) args)
             else ret args
           else ret args) ;;
  overridesInput <- core.getInput h "overrides" false ;;
  args <- (if truthy overridesInput then
             core.debug "Adding overrides inputs" ;;;
             let overrides := Js.split LF overridesInput in
             if (0 <? length overrides)%nat then
               let overrideValues := getOverrideValues overrides in
               ret (Js.forEach overrideValues
                      (fun args overrideValue =>
                         Js.push (Js.push args "--set")
                                 (name overrideValue ++ "=" ++ value overrideValue)%string)
                      args)
             else ret args
           else ret args) ;;
  ret args.

Definition bake (h : Host) : Action unit :=
  core.log "in HelmRenderEngine" ;;;
  helmPath <- await (getHelmPath h) ;;
  core.debug "Creating the template argument string.." ;;;
  args <- getTemplateArgs h ;;
  let options := {| silent := true |} in
  core.debug "Running helm template command.." ;;;
  result <- awaiting (utilities.execCommand h helmPath args (Some options)) ;;
  pathToBakedManifest <- RenderEngine.getTemplatePath h ;;
  fs.writeFileSync h pathToBakedManifest (stdout result) ;;;
  core.setOutput "manifestsBundle" pathToBakedManifest.

End HelmRenderEngine.

(* ================================================================== *)
(** ** [class KomposeRenderEngine] *)
(* ================================================================== *)

Module KomposeRenderEngine.

(** [bake].  The guard negates the promise that [ioUtil.exists] returns,
    not the awaited answer. *)
Definition bake (h : Host) : Action unit :=
  dockerComposeFilePath <- core.getInput h "dockerComposeFile" true ;;
  if negb (truthy (ioUtil.exists_ h dockerComposeFilePath)) then
    throw (Error (format_s
      "Docker compose file path %s does not exist. Please check the path specified"
      dockerComposeFilePath))
  else
    komposePath <- await (getKomposePath h) ;;
    pathToBakedManifest <- RenderEngine.getTemplatePath h ;;
    core.debug "Running kompose command.." ;;;
    _ <- awaiting (utilities.execCommand h komposePath
           ["convert"; "-f"; dockerComposeFilePath; "-o"; pathToBakedManifest]
           None) ;;
    core.setOutput "manifestsBundle" pathToBakedManifest.

End KomposeRenderEngine.

(* ================================================================== *)
(** ** [class KustomizeRenderEngine] *)
(* ================================================================== *)

Definition unsupportedClientVersion : JsError :=
  Error "kubectl client version equal to v1.14 or higher is required to use kustomize features".

Module KustomizeRenderEngine.

(** [JSON.parse(text).clientVersion]: reading a member of [null] throws. *)
Definition clientVersionOf (parsed : json) : Action (option json) :=
  match parsed with
  | JNull => throw (mkJsError "TypeError"
                      "Cannot read property 'clientVersion' of null")
  | _ => ret (getProp parsed "clientVersion")
  end.

(** The condition of line 141:
    [clientVersion && parseInt(clientVersion.major) >= 1
                   && parseInt(clientVersion.minor) >= 14],
    evaluated from left to right: [&&] stops at the first falsy operand,
    and [parseInt] first converts its argument to a string, which may
    throw. *)
Definition versionAccepted (clientVersion : option json) : Outcome bool :=
  match clientVersion with
  | Some cv =>
      if truthy cv then
        match ToString (getProp cv "major") with
        | Thrown e => Thrown e
        | Returned major =>
            if ParseInt.geq (ParseInt.parseInt major) 1 then
              match ToString (getProp cv "minor") with
              | Thrown e => Thrown e
              | Returned minor =>
                  Returned (ParseInt.geq (ParseInt.parseInt minor) 14)
              end
            else Returned false
        end
      else Returned false
  | None => Returned false
  end.

Definition validateKustomize (h : Host) (kubectlPath : string) : Action unit :=
  result <- awaiting (utilities.execCommand h kubectlPath
              ["version"; "--client=true"; "-o"; "json"] None) ;;
  if truthy (stdout result) then
    parsed <- JSON.parse h (stdout result) ;;
    clientVersion <- clientVersionOf parsed ;;
    accepted <- evaluate (versionAccepted clientVersion) ;;
    if accepted then
      ret tt
    else
      throw unsupportedClientVersion
  else ret tt.

Definition bake (h : Host) : Action unit :=
  kubectlPath <- await (getKubectlPath h) ;;
  validateKustomize h kubectlPath ;;;
  kustomizationPath <- core.getInput h "kustomizationPath" true ;;
  if negb (truthy (ioUtil.exists_ h kustomizationPath)) then
    throw (Error (format_s
      "kustomizationPath %s does not exist. Please check whether file exists or not."
      kustomizationPath))
  else
    let options := {| silent := true |} in
    core.debug "Running kubectl kustomize command.." ;;;
    shown <- core.getInput h "kustomizationPath" false ;;
    console.log ("[command] " ++ kubectlPath ++ " kustomize " ++ shown)%string ;;;
    result <- awaiting (utilities.execCommand h kubectlPath
                ["kustomize"; kustomizationPath] (Some options)) ;;
    pathToBakedManifest <- RenderEngine.getTemplatePath h ;;
    fs.writeFileSync h pathToBakedManifest (stdout result) ;;;
    core.setOutput "manifestsBundle" pathToBakedManifest.

End KustomizeRenderEngine.

(* ================================================================== *)
(** ** [run] *)
(* ================================================================== *)

(** The three classes that extend [RenderEngine]. *)
Inductive EngineKind : Type := Helm | Kompose | Kustomize.

(** [renderEngine.bake()] *)
Definition bake (h : Host) (renderEngine : EngineKind) : Action unit :=
  match renderEngine with
  | Helm => HelmRenderEngine.bake h
  | Kompose => KomposeRenderEngine.bake h
  | Kustomize => KustomizeRenderEngine.bake h
  end.

(** The [switch (renderType)] of [run]. *)
Definition selectEngine (renderType : string) : Action EngineKind :=
  if String.eqb renderType "helm2" then ret Helm
  else if String.eqb renderType "kompose" then ret Kompose
  else if String.eqb renderType "kustomize" then ret Kustomize
  else throw (Error "Unknown render engine").

(** The [try { await renderEngine.bake() } catch (err) { ... }] of [run]. *)
Definition runBake (h : Host) (renderEngine : EngineKind) : Action unit :=
  tryCatch (bake h renderEngine)
           (fun err => throw (Error (util.format_err h
                                       "Failed to run bake action. Error: %s" err))).

Definition run (h : Host) : Action unit :=
  renderType <- core.getInput h "renderEngine" true ;;
  console.log "in run" ;;;
  core.debug "in run" ;;;
  renderEngine <- selectEngine renderType ;;
  runBake h renderEngine.

(** [run().catch(core.setFailed)] *)
Definition main (h : Host) : Action unit :=
  tryCatch (run h) core.setFailed.

(* ================================================================== *)
(** ** Reading a trace *)
(* ================================================================== *)

(** The processes spawned, in order. *)
Fixpoint execs (t : list Event) : list (string * list string) :=
  match t with
  | [] => []
  | EExec tool args _ :: rest => (tool, args) :: execs rest
  | _ :: rest => execs rest
  end.

(** The outputs reported through [core.setOutput], in order. *)
Fixpoint outputs (t : list Event) : list (string * string) :=
  match t with
  | [] => []
  | ESetOutput name value :: rest => (name, value) :: outputs rest
  | _ :: rest => outputs rest
  end.

(* ================================================================== *)
(** ** The specification's wording, for comparison with the code *)
(* ================================================================== *)

Module Spec.

(** Whether the character occurs in the string. *)
Fixpoint occurs (c : ascii) (s : string) : bool :=
  match s with
  | EmptyString => false
  | String a rest => Ascii.eqb a c || occurs c rest
  end.

(** The substring before the first [c] (the whole string if there is none). *)
Fixpoint beforeFirst (c : ascii) (s : string) : string :=
  match s with
  | EmptyString => EmptyString
  | String a rest => if Ascii.eqb a c then EmptyString else String a (beforeFirst c rest)
  end.

(** Everything after the first [c] (nothing if there is none). *)
Fixpoint afterFirst (c : ascii) (s : string) : string :=
  match s with
  | EmptyString => EmptyString
  | String a rest => if Ascii.eqb a c then rest else afterFirst c rest
  end.

(** The entries of a newline-delimited input; an input that is not
    supplied has none. *)
Definition entries (input : string) : list string :=
  match input with
  | EmptyString => []
  | _ => Js.split LF input
  end.

(** The Helm argument list as the specification words it. *)
Definition helmArgs (chartPath releaseName overrideFiles overrides : string)
  : list string :=
  ["template"; chartPath]
    ++ (match releaseName with
        | EmptyString => []
        | _ => ["--name"; releaseName]
        end)
    ++ flat_map (fun file => ["-f"; file]) (entries overrideFiles)
    ++ flat_map (fun token =>
                   ["--set"; (beforeFirst ":" token ++ "=" ++ afterFirst ":" token)%string])
                (entries overrides).

(** The version policy as the specification words it: both numbers
    parsed as integers ([None] when the text has no leading integer),
    accepted when major >= 1 and minor >= 14. *)
Definition versionPolicy (major minor : option Z) : bool :=
  match major, minor with
  | Some M, Some m => (1 <=? M)%Z && (14 <=? m)%Z
  | _, _ => false
  end.

End Spec.

(* ================================================================== *)
(** ** What a computation adds to the trace *)
(* ================================================================== *)

(** The computation reports no output, whatever its outcome. *)
Definition quiet {A : Type} (c : Action A) : Prop :=
  forall s, exists added,
    trace (snd (c s)) = trace s ++ added /\ outputs added = [].

(** The computation either returns, having reported the one output
    [manifestsBundle] as its last act, or throws, having reported none. *)
Definition allOrNothing (c : Action unit) : Prop :=
  forall s, exists added,
    outputs added = []
    /\ match c s with
       | (Returned _, s') =>
           exists path,
             trace s' = trace s ++ added ++ [ESetOutput "manifestsBundle" path]
       | (Thrown _, s') => trace s' = trace s ++ added
       end.

(** The state once [tool] has been spawned with [args]. *)
Definition spawned (s : State) (tool : string) (args : list string)
           (options : option ExecOptions) : State :=
  {| clockReads := clockReads s; trace := trace s ++ [EExec tool args options] |}.

(** The arguments of the version query of [validateKustomize]. *)
Definition versionArgs : list string := ["version"; "--client=true"; "-o"; "json"].

(** The file name of a baked manifest for a clock reading. *)
Definition bakedName (now : Z) : string :=
  ("baked-template-" ++ numberToString now ++ ".yaml")%string.

(** The error [run] throws for an error [err] caught around [bake] on
    a Node that prints no stack frames. *)
Definition bakeFailure (err : JsError) : JsError :=
  Error ("Failed to run bake action. Error: " ++ errorToString err)%string.

(** The error [run] throws for an error [err] caught around [bake]. *)
Definition wrappedFailure (h : Host) (err : JsError) : JsError :=
  Error ("Failed to run bake action. Error: "
           ++ errorToString err ++ host_stackFrames h err)%string.

(** The error of calling [core.log]. *)
Definition coreLogMissing : JsError :=
  mkJsError "TypeError" "core.log is not a function".

(* ================================================================== *)
(** ** Concrete hosts, on which the statements below are exercised *)
(* ================================================================== *)

Fixpoint inputOf (inputs : list (string * string)) (name : string) : string :=
  match inputs with
  | [] => EmptyString
  | (k, v) :: rest => if String.eqb k name then v else inputOf rest name
  end.

(** A Linux runner on a Node that prints no stack frames: scratch
    directory set, a clock that advances by one with every reading, no
    path on disk, every tool resolved, every process and every write
    succeeding. *)
Definition runner (inputs : list (string * string))
           (reply : list string -> string) (parsed : Outcome json) : Host :=
  {| host_env_input := inputOf inputs;
     host_RUNNER_TEMP := Some "/home/runner/work/_temp";
     host_clock := fun n => (1700000000000 + Z.of_nat n)%Z;
     host_exists := fun _ => false;
     host_stat_error := fun _ => None;
     host_helmPath := Returned "/usr/bin/helm";
     host_kubectlPath := Returned "/usr/bin/kubectl";
     host_komposePath := Returned "/usr/bin/kompose";
     host_exec := fun _ args _ => Returned {| stdout := reply args; stderr := "" |};
     host_writeFile := fun _ _ => Returned tt;
     host_JSON_parse := fun _ => parsed;
     host_stackFrames := fun _ => EmptyString |}.

(** Two lines of text. *)
Definition lines2 (a b : string) : string := (a ++ String LF b)%string.

Definition helmInputs : list (string * string) :=
  [("renderEngine", "helm2"); ("helmChart", "./chart"); ("releaseName", "web");
   ("overrideFiles", lines2 "values.yaml" "prod.yaml");
   ("overrides", lines2 "image.tag:v1.2.3" "replicaCount:3")].

(** The host [h] with its clock stopped at [now]. *)
Definition stoppedClock (h : Host) (now : Z) : Host :=
  {| host_env_input := host_env_input h;
     host_RUNNER_TEMP := host_RUNNER_TEMP h;
     host_clock := fun _ => now;
     host_exists := host_exists h;
     host_stat_error := host_stat_error h;
     host_helmPath := host_helmPath h;
     host_kubectlPath := host_kubectlPath h;
     host_komposePath := host_komposePath h;
     host_exec := host_exec h;
     host_writeFile := host_writeFile h;
     host_JSON_parse := host_JSON_parse h;
     host_stackFrames := host_stackFrames h |}.

Definition unknownInputs : list (string * string) :=
  [("renderEngine", "helm3"); ("helmChart", "./chart")].

Definition komposeInputs : list (string * string) :=
  [("renderEngine", "kompose"); ("dockerComposeFile", "missing/docker-compose.yml")].

Definition kustomizeInputs : list (string * string) :=
  [("renderEngine", "kustomize"); ("kustomizationPath", "missing/overlay")].

(** The parsed output of [kubectl version --client=true -o json], cut
    down to the two fields the gate reads. *)
Definition clientVersion (major minor : json) : json :=
  JObj [("clientVersion", JObj [("major", major); ("minor", minor)])].

(** What the sample kubectl prints: a version document for [version],
    a manifest for everything else. *)
Definition kubectlReply (args : list string) : string :=
  match args with
  | "version" :: _ => "{...}"
  | _ => "kind: Deployment"
  end.

(** A kubectl that prints nothing for [version]. *)
Definition silentKubectlReply (args : list string) : string :=
  match args with
  | "version" :: _ => EmptyString
  | _ => "kind: Deployment"
  end.

(** The host [h] with another answer to what exists on disk. *)
Definition withDisk (h : Host) (disk : string -> bool) : Host :=
  {| host_env_input := host_env_input h;
     host_RUNNER_TEMP := host_RUNNER_TEMP h;
     host_clock := host_clock h;
     host_exists := disk;
     host_stat_error := host_stat_error h;
     host_helmPath := host_helmPath h;
     host_kubectlPath := host_kubectlPath h;
     host_komposePath := host_komposePath h;
     host_exec := host_exec h;
     host_writeFile := host_writeFile h;
     host_JSON_parse := host_JSON_parse h;
     host_stackFrames := host_stackFrames h |}.

(** A runner asked to convert a compose file that is not on disk. *)
Definition komposeRunner : Host :=
  runner komposeInputs (fun _ => EmptyString) (Returned JNull).

(** A runner with kubectl 1.20 asked to render an overlay that is not on
    disk. *)
Definition kustomizeRunner : Host :=
  runner kustomizeInputs kubectlReply
         (Returned (clientVersion (JStr "1") (JStr "20"))).

(* ================================================================== *)
(** ** Further readings of a trace, and further hosts *)
(* ================================================================== *)

(** The files written through [fs.writeFileSync], in order. *)
Fixpoint writes (t : list Event) : list (string * string) :=
  match t with
  | [] => []
  | EWriteFile path data :: rest => (path, data) :: writes rest
  | _ :: rest => writes rest
  end.

(** The failures reported through [core.setFailed], in order. *)
Fixpoint failures (t : list Event) : list string :=
  match t with
  | [] => []
  | ESetFailed msg :: rest => msg :: failures rest
  | _ :: rest => failures rest
  end.

(** The host [h] with other raw inputs. *)
Definition withInputs (h : Host) (inputs : string -> string) : Host :=
  {| host_env_input := inputs;
     host_RUNNER_TEMP := host_RUNNER_TEMP h;
     host_clock := host_clock h;
     host_exists := host_exists h;
     host_stat_error := host_stat_error h;
     host_helmPath := host_helmPath h;
     host_kubectlPath := host_kubectlPath h;
     host_komposePath := host_komposePath h;
     host_exec := host_exec h;
     host_writeFile := host_writeFile h;
     host_JSON_parse := host_JSON_parse h;
     host_stackFrames := host_stackFrames h |}.

(** The host [h] where [stat] fails with [err] on every path. *)
Definition withStatError (h : Host) (err : JsError) : Host :=
  {| host_env_input := host_env_input h;
     host_RUNNER_TEMP := host_RUNNER_TEMP h;
     host_clock := host_clock h;
     host_exists := host_exists h;
     host_stat_error := fun _ => Some err;
     host_helmPath := host_helmPath h;
     host_kubectlPath := host_kubectlPath h;
     host_komposePath := host_komposePath h;
     host_exec := host_exec h;
     host_writeFile := host_writeFile h;
     host_JSON_parse := host_JSON_parse h;
     host_stackFrames := host_stackFrames h |}.

(** The host [h] on a Node that prints [frames] after the text of every
    error. *)
Definition withFrames (h : Host) (frames : string) : Host :=
  {| host_env_input := host_env_input h;
     host_RUNNER_TEMP := host_RUNNER_TEMP h;
     host_clock := host_clock h;
     host_exists := host_exists h;
     host_stat_error := host_stat_error h;
     host_helmPath := host_helmPath h;
     host_kubectlPath := host_kubectlPath h;
     host_komposePath := host_komposePath h;
     host_exec := host_exec h;
     host_writeFile := host_writeFile h;
     host_JSON_parse := host_JSON_parse h;
     host_stackFrames := fun _ => frames |}.

(** The host [h] with another scratch-directory variable. *)
Definition withTemp (h : Host) (temp : option string) : Host :=
  {| host_env_input := host_env_input h;
     host_RUNNER_TEMP := temp;
     host_clock := host_clock h;
     host_exists := host_exists h;
     host_stat_error := host_stat_error h;
     host_helmPath := host_helmPath h;
     host_kubectlPath := host_kubectlPath h;
     host_komposePath := host_komposePath h;
     host_exec := host_exec h;
     host_writeFile := host_writeFile h;
     host_JSON_parse := host_JSON_parse h;
     host_stackFrames := host_stackFrames h |}.

(** A Helm runner: a rendered manifest on stdout. *)
Definition helmRunner : Host :=
  runner helmInputs (fun _ => "kind: Service") (Returned JNull).

(** Helm inputs with a blank line between two override files. *)
Definition blankLineInputs : list (string * string) :=
  [("renderEngine", "helm2"); ("helmChart", "./chart");
   ("overrideFiles", ("values.yaml" ++ String LF (String LF "prod.yaml"))%string)].

(** Helm inputs whose chart is white space only. *)
Definition blankChartInputs : list (string * string) :=
  [("renderEngine", "helm2"); ("helmChart", "  "); ("releaseName", "web")].

(** A runner asked to convert a compose file whose name is one blank. *)
Definition blankComposeRunner : Host :=
  runner [("renderEngine", "kompose"); ("dockerComposeFile", " ")]
         (fun _ => EmptyString) (Returned JNull).

(** A runner with kubectl 1.20 asked to render an overlay whose name is
    one blank. *)
Definition blankOverlayRunner : Host :=
  runner [("renderEngine", "kustomize"); ("kustomizationPath", " ")]
         kubectlReply (Returned (clientVersion (JStr "1") (JStr "20"))).

(** The path [getTemplatePath] returns from state [s] when the scratch
    directory is [dir]. *)
Definition bakedPath (h : Host) (s : State) (dir : string) : string :=
  Path.join dir (bakedName (host_clock h (clockReads s))).

(** The argument list of [getTemplateArgs] on the inputs of [h]. *)
Definition helmArgsOf (h : Host) : list string :=
  Spec.helmArgs (host_input h "helmChart") (host_input h "releaseName")
                (host_input h "overrideFiles") (host_input h "overrides").

(** The debug lines of [getTemplateArgs] on the inputs of [h]. *)
Definition helmArgLines (h : Host) : list Event :=
  (if truthy (host_input h "overrideFiles")
   then [ECoreDebug "Adding overrides file inputs"] else [])
    ++ (if truthy (host_input h "overrides")
        then [ECoreDebug "Adding overrides inputs"] else []).

(** Everything a returning Kompose [bake()] does, in order. *)
Definition komposeBakeTrace (komposePath file path : string) : list Event :=
  [ECoreDebug "Running kompose command..";
   EExec komposePath ["convert"; "-f"; file; "-o"; path] None;
   ESetOutput "manifestsBundle" path].

(** Everything a returning Kustomize [bake()] does, in order. *)
Definition kustomizeBakeTrace (kubectlPath overlay : string) (result : ExecResult)
           (path : string) : list Event :=
  [EExec kubectlPath versionArgs None;
   ECoreDebug "Running kubectl kustomize command..";
   EConsoleLog ("[command] " ++ kubectlPath ++ " kustomize " ++ overlay)%string;
   EExec kubectlPath ["kustomize"; overlay] (Some {| silent := true |});
   EWriteFile path (stdout result);
   ESetOutput "manifestsBundle" path].

(** A runner whose kubectl reports client version 1.13. *)
Definition oldKubectlRunner : Host :=
  runner kustomizeInputs kubectlReply
         (Returned (clientVersion (JStr "1") (JStr "13"))).

(** The inputs each engine reads. *)
Definition engineInputs (renderEngine : EngineKind) : list string :=
  match renderEngine with
  | Helm => ["releaseName"; "helmChart"; "overrideFiles"; "overrides"]
  | Kompose => ["dockerComposeFile"]
  | Kustomize => ["kustomizationPath"]
  end.

(** The error of [getTemplatePath] without a scratch directory. *)
Definition noScratchDirectory : JsError := Error "Unable to create temp directory.".

(** The state once [run] has written its two log lines. *)
Definition afterRunLogs (s : State) : State :=
  {| clockReads := clockReads s;
     trace := (trace s ++ [EConsoleLog "in run"]) ++ [ECoreDebug "in run"] |}.

(** The state once a failure has been reported. *)
Definition failed (s : State) (msg : string) : State :=
  {| clockReads := clockReads s; trace := trace s ++ [ESetFailed msg] |}.

(** The Kustomize inputs, with inputs of the other two engines besides. *)
Definition crowdedInputs : list (string * string) :=
  kustomizeInputs ++ [("helmChart", "./chart"); ("releaseName", "web");
                      ("dockerComposeFile", "docker-compose.yml")].

(** The value that reading decimal digits from left to right gives,
    starting from [acc]. *)
Fixpoint uintValue (d : Decimal.uint) (acc : Z) : Z :=
  match d with
  | Decimal.Nil => acc
  | Decimal.D0 l => uintValue l (acc * 10 + 0)
  | Decimal.D1 l => uintValue l (acc * 10 + 1)
  | Decimal.D2 l => uintValue l (acc * 10 + 2)
  | Decimal.D3 l => uintValue l (acc * 10 + 3)
  | Decimal.D4 l => uintValue l (acc * 10 + 4)
  | Decimal.D5 l => uintValue l (acc * 10 + 5)
  | Decimal.D6 l => uintValue l (acc * 10 + 6)
  | Decimal.D7 l => uintValue l (acc * 10 + 7)
  | Decimal.D8 l => uintValue l (acc * 10 + 8)
  | Decimal.D9 l => uintValue l (acc * 10 + 9)
  end%Z.

(** A text that may follow a decimal number without changing what
    [parseInt] reads: empty, or starting with a character that is
    neither a decimal digit nor the [x] of a hexadecimal prefix. *)
Definition plainSuffix (suffix : string) : bool :=
  match suffix with
  | EmptyString => true
  | String c _ =>
      match ParseInt.digitValue 10 c with
      | Some _ => false
      | None => negb (Ascii.eqb c "x") && negb (Ascii.eqb c "X")
      end
  end.

(** A version document whose two numbers are given as text. *)
Definition versionText (major minor : string) : option json :=
  Some (JObj [("major", JStr major); ("minor", JStr minor)]).

(** A runner whose kubectl prints a version document without a
    [clientVersion]. *)
Definition serverOnlyRunner : Host :=
  runner kustomizeInputs kubectlReply
         (Returned (JObj [("serverVersion",
                           JObj [("major", JStr "1"); ("minor", JStr "20")])])).

(** A runner whose kubectl prints something that is not JSON. *)
Definition garbledRunner : Host :=
  runner kustomizeInputs kubectlReply
         (Thrown (mkJsError "SyntaxError" "Unexpected token . in JSON at position 1")).

(** The error of a [stat] that may not look into a directory on the way
    to [path]. *)
Definition permissionDenied (path : string) : JsError :=
  mkJsError "Error" ("EACCES: permission denied, stat '" ++ path ++ "'")%string.

Definition lockedComposeInputs : list (string * string) :=
  [("renderEngine", "kompose"); ("dockerComposeFile", "locked/docker-compose.yml")].

Definition lockedOverlayInputs : list (string * string) :=
  [("renderEngine", "kustomize"); ("kustomizationPath", "locked/overlay")].

(** A runner asked to convert a compose file in a directory it may not
    look into. *)
Definition lockedComposeRunner : Host :=
  withStatError (runner lockedComposeInputs (fun _ => EmptyString) (Returned JNull))
                (permissionDenied "locked/docker-compose.yml").

(** A runner with kubectl 1.20 asked to render an overlay in a directory
    it may not look into. *)
Definition lockedOverlayRunner : Host :=
  withStatError (runner lockedOverlayInputs kubectlReply
                        (Returned (clientVersion (JStr "1") (JStr "20"))))
                (permissionDenied "locked/overlay").

(** Stack frames as Node prints them after the text of an error. *)
Definition sampleFrames : string :=
  String LF "    at Generator.next (<anonymous>)".

(** The host [h] with other outcomes of its processes. *)
Definition withExec (h : Host)
           (exec : string -> list string -> option ExecOptions -> Outcome ExecResult)
  : Host :=
  {| host_env_input := host_env_input h;
     host_RUNNER_TEMP := host_RUNNER_TEMP h;
     host_clock := host_clock h;
     host_exists := host_exists h;
     host_stat_error := host_stat_error h;
     host_helmPath := host_helmPath h;
     host_kubectlPath := host_kubectlPath h;
     host_komposePath := host_komposePath h;
     host_exec := exec;
     host_writeFile := host_writeFile h;
     host_JSON_parse := host_JSON_parse h;
     host_stackFrames := host_stackFrames h |}.

(** The error of a process that ends with exit code 1. *)
Definition exitCode1 (tool : string) : JsError :=
  Error ("The process '" ++ tool ++ "' failed with exit code 1")%string.

(** A runner on which every process fails. *)
Definition failingKomposeRunner : Host :=
  withExec komposeRunner (fun tool _ _ => Thrown (exitCode1 tool)).

(** The same for the compose file in the directory the runner may not
    look into. *)
Definition lockedFailingRunner : Host :=
  withExec lockedComposeRunner (fun tool _ _ => Thrown (exitCode1 tool)).

(** A version document whose [major] cannot be converted to a string. *)
Definition oddVersion : json :=
  JObj [("major", JObj [("toString", JStr "1")]); ("minor", JStr "14")].

(** A runner whose kubectl prints that document. *)
Definition oddVersionRunner : Host :=
  runner kustomizeInputs kubectlReply
         (Returned (JObj [("clientVersion", oddVersion)])).

(** ** The errors of the steps of a [bake()] *)

(** [raises h engine s err s']: started in state [s], the [bake()] of the
    engine comes to a step that throws (or rejects with) [err], every
    step before it having succeeded once; [s'] is the state that step
    leaves.  The steps are those that [bake()] calls or awaits; the
    promise of [ioUtil.exists] is not among them. *)
Inductive raises (h : Host) : EngineKind -> State -> JsError -> State -> Prop :=
| raises_core_log (s : State) :
    raises h Helm s coreLogMissing s
| raises_compose_input (s : State) :
    host_env_input h "dockerComposeFile" = EmptyString ->
    raises h Kompose s (Error "Input required and not supplied: dockerComposeFile") s
| raises_kompose_lookup (s : State) (err : JsError) :
    host_env_input h "dockerComposeFile" <> EmptyString ->
    host_komposePath h = Thrown err ->
    raises h Kompose s err s
| raises_kompose_scratch (s : State) (komposePath : string) :
    host_env_input h "dockerComposeFile" <> EmptyString ->
    host_komposePath h = Returned komposePath ->
    truthy (host_RUNNER_TEMP h) = false ->
    raises h Kompose s noScratchDirectory s
| raises_kompose_exec (s : State) (komposePath dir : string) (err : JsError) :
    host_env_input h "dockerComposeFile" <> EmptyString ->
    host_komposePath h = Returned komposePath ->
    host_RUNNER_TEMP h = Some dir -> dir <> EmptyString ->
    host_exec h komposePath
              ["convert"; "-f"; host_input h "dockerComposeFile";
               "-o"; bakedPath h s dir] None
    = Thrown err ->
    raises h Kompose s err
           {| clockReads := S (clockReads s);
              trace := trace s
                         ++ [ECoreDebug "Running kompose command..";
                             EExec komposePath
                                   ["convert"; "-f"; host_input h "dockerComposeFile";
                                    "-o"; bakedPath h s dir] None] |}
| raises_kubectl_lookup (s : State) (err : JsError) :
    host_kubectlPath h = Thrown err ->
    raises h Kustomize s err s
| raises_version_check (s : State) (kubectlPath : string) (err : JsError) :
    host_kubectlPath h = Returned kubectlPath ->
    fst (KustomizeRenderEngine.validateKustomize h kubectlPath s) = Thrown err ->
    raises h Kustomize s err (spawned s kubectlPath versionArgs None)
| raises_overlay_input (s : State) (kubectlPath : string) :
    host_kubectlPath h = Returned kubectlPath ->
    fst (KustomizeRenderEngine.validateKustomize h kubectlPath s) = Returned tt ->
    host_env_input h "kustomizationPath" = EmptyString ->
    raises h Kustomize s (Error "Input required and not supplied: kustomizationPath")
           (spawned s kubectlPath versionArgs None)
| raises_kustomize_exec (s : State) (kubectlPath : string) (err : JsError) :
    host_kubectlPath h = Returned kubectlPath ->
    fst (KustomizeRenderEngine.validateKustomize h kubectlPath s) = Returned tt ->
    host_env_input h "kustomizationPath" <> EmptyString ->
    host_exec h kubectlPath ["kustomize"; host_input h "kustomizationPath"]
              (Some {| silent := true |})
    = Thrown err ->
    raises h Kustomize s err
           {| clockReads := clockReads s;
              trace := trace s
                         ++ [EExec kubectlPath versionArgs None;
                             ECoreDebug "Running kubectl kustomize command..";
                             EConsoleLog ("[command] " ++ kubectlPath ++ " kustomize "
                                            ++ host_input h "kustomizationPath")%string;
                             EExec kubectlPath
                                   ["kustomize"; host_input h "kustomizationPath"]
                                   (Some {| silent := true |})] |}
| raises_kustomize_scratch (s : State) (kubectlPath : string) (result : ExecResult) :
    host_kubectlPath h = Returned kubectlPath ->
    fst (KustomizeRenderEngine.validateKustomize h kubectlPath s) = Returned tt ->
    host_env_input h "kustomizationPath" <> EmptyString ->
    host_exec h kubectlPath ["kustomize"; host_input h "kustomizationPath"]
              (Some {| silent := true |})
    = Returned result ->
    truthy (host_RUNNER_TEMP h) = false ->
    raises h Kustomize s noScratchDirectory
           {| clockReads := clockReads s;
              trace := trace s
                         ++ [EExec kubectlPath versionArgs None;
                             ECoreDebug "Running kubectl kustomize command..";
                             EConsoleLog ("[command] " ++ kubectlPath ++ " kustomize "
                                            ++ host_input h "kustomizationPath")%string;
                             EExec kubectlPath
                                   ["kustomize"; host_input h "kustomizationPath"]
                                   (Some {| silent := true |})] |}
| raises_kustomize_write (s : State) (kubectlPath dir : string) (result : ExecResult)
                         (err : JsError) :
    host_kubectlPath h = Returned kubectlPath ->
    fst (KustomizeRenderEngine.validateKustomize h kubectlPath s) = Returned tt ->
    host_env_input h "kustomizationPath" <> EmptyString ->
    host_exec h kubectlPath ["kustomize"; host_input h "kustomizationPath"]
              (Some {| silent := true |})
    = Returned result ->
    host_RUNNER_TEMP h = Some dir -> dir <> EmptyString ->
    host_writeFile h (bakedPath h s dir) (stdout result) = Thrown err ->
    raises h Kustomize s err
           {| clockReads := S (clockReads s);
              trace := trace s
                         ++ [EExec kubectlPath versionArgs None;
                             ECoreDebug "Running kubectl kustomize command..";
                             EConsoleLog ("[command] " ++ kubectlPath ++ " kustomize "
                                            ++ host_input h "kustomizationPath")%string;
                             EExec kubectlPath
                                   ["kustomize"; host_input h "kustomizationPath"]
                                   (Some {| silent := true |});
                             EWriteFile (bakedPath h s dir) (stdout result)] |}.

(* ================================================================== *)
(** * Properties *)
(* ================================================================== *)

Unset Implicit Arguments.

(** ** The models of [parseInt] and [path.join] on sample inputs *)

Example parseInt_samples :
  map ParseInt.parseInt ["14"; "14+"; " 20"; "0x1F"; "-3"; "v1"; ""; "1.9"]
  = [Some 14; Some 14; Some 20; Some 31; Some (-3); None; None; Some 1]%Z.
Proof. reflexivity. Qed.

Example path_join_samples :
  map (fun d => Path.join d "out.yaml")
      ["/home/runner/work/_temp"; "/tmp/"; "a/../b"; "."; "/"; "/a//b/./c"]
  = ["/home/runner/work/_temp/out.yaml"; "/tmp/out.yaml"; "b/out.yaml";
     "out.yaml"; "/out.yaml"; "/a/b/c/out.yaml"].
Proof. reflexivity. Qed.

(** ** Reading an input *)

Lemma supplied_raw (h : Host) (n : string) :
  host_input h n <> EmptyString -> host_env_input h n <> EmptyString.
Proof. unfold host_input. intros H E. apply H. now rewrite E. Qed.

Lemma getInput_optional (h : Host) (n : string) :
  core.getInput h n false = ret (host_input h n).
Proof. reflexivity. Qed.

Lemma getInput_raw (h : Host) (n : string) :
  host_env_input h n <> EmptyString ->
  core.getInput h n true = ret (host_input h n).
Proof.
  intros H. unfold core.getInput, host_input.
  destruct (host_env_input h n); [congruence|reflexivity].
Qed.

Lemma getInput_supplied (h : Host) (n : string) :
  host_input h n <> EmptyString ->
  core.getInput h n true = ret (host_input h n).
Proof. intros H. apply getInput_raw. now apply supplied_raw. Qed.

Lemma getInput_missing (h : Host) (n : string) :
  host_env_input h n = EmptyString ->
  core.getInput h n true
  = throw (Error ("Input required and not supplied: " ++ n)%string).
Proof. intros H. unfold core.getInput. now rewrite H. Qed.

(** ** Strings and arrays *)

Lemma split_nonempty (c : ascii) (s : string) : Js.split c s <> [].
Proof.
  destruct s as [|a rest]; simpl; [discriminate|].
  destruct (Ascii.eqb a c); [discriminate|].
  destruct (Js.split c rest); discriminate.
Qed.

Lemma split_cons_other (c a : ascii) (rest : string) :
  Ascii.eqb a c = false ->
  Js.split c (String a rest)
  = String a (hd EmptyString (Js.split c rest)) :: tl (Js.split c rest).
Proof.
  intros Hac. simpl. rewrite Hac.
  destruct (Js.split c rest) eqn:E; [|reflexivity].
  exfalso. exact (split_nonempty _ _ E).
Qed.

(** Joining the pieces with the separator gives the string back. *)
Lemma join_split (c : ascii) (s : string) :
  Js.join (String c EmptyString) (Js.split c s) = s.
Proof.
  induction s as [|a rest IH]; [reflexivity|].
  destruct (Ascii.eqb a c) eqn:Hac.
  - simpl. rewrite Hac. apply Ascii.eqb_eq in Hac. subst a.
    pose proof (split_nonempty c rest) as Hne.
    destruct (Js.split c rest) as [|p ps] eqn:E; [contradiction|].
    change (Js.join (String c EmptyString) (EmptyString :: p :: ps))
      with (String c (Js.join (String c EmptyString) (p :: ps))).
    now rewrite IH.
  - rewrite (split_cons_other _ _ rest Hac).
    pose proof (split_nonempty c rest) as Hne.
    destruct (Js.split c rest) as [|p ps] eqn:E; [contradiction|].
    simpl hd. simpl tl. rewrite <- IH.
    destruct ps; reflexivity.
Qed.

Lemma hd_split (c : ascii) (s : string) :
  hd EmptyString (Js.split c s) = Spec.beforeFirst c s.
Proof.
  induction s as [|a rest IH]; [reflexivity|].
  destruct (Ascii.eqb a c) eqn:Hac.
  - simpl. now rewrite Hac.
  - rewrite (split_cons_other _ _ rest Hac). simpl. now rewrite Hac, IH.
Qed.

Lemma tl_split (c : ascii) (s : string) :
  Js.join (String c EmptyString) (Js.slice1 (Js.split c s)) = Spec.afterFirst c s.
Proof.
  induction s as [|a rest IH]; [reflexivity|].
  destruct (Ascii.eqb a c) eqn:Hac.
  - simpl. rewrite Hac. unfold Js.slice1. simpl tl. apply join_split.
  - rewrite (split_cons_other _ _ rest Hac). simpl Spec.afterFirst. now rewrite Hac.
Qed.

Lemma beforeFirst_app (c : ascii) (n v : string) :
  Spec.occurs c n = false -> Spec.beforeFirst c (n ++ String c v) = n.
Proof.
  induction n as [|a n IH]; simpl; intros H.
  - now rewrite Ascii.eqb_refl.
  - apply orb_false_iff in H. destruct H as [Hac H].
    rewrite Hac. now rewrite IH.
Qed.

Lemma afterFirst_app (c : ascii) (n v : string) :
  Spec.occurs c n = false -> Spec.afterFirst c (n ++ String c v) = v.
Proof.
  induction n as [|a n IH]; simpl; intros H.
  - now rewrite Ascii.eqb_refl.
  - apply orb_false_iff in H. destruct H as [Hac H].
    rewrite Hac. now apply IH.
Qed.

(** A [forEach] whose callback pushes one element per item. *)
Lemma forEach_push {A B : Type} (f : A -> B) (arr : list A) (acc : list B) :
  Js.forEach arr (fun acc x => Js.push acc (f x)) acc = acc ++ map f arr.
Proof.
  unfold Js.forEach, Js.push. revert acc.
  induction arr as [|x arr IH]; intros acc; simpl.
  - now rewrite app_nil_r.
  - rewrite IH, <- app_assoc. reflexivity.
Qed.

(** A [forEach] whose callback pushes a fixed flag and then one element
    per item. *)
Lemma forEach_push2 {A B : Type} (flag : B) (f : A -> B) (arr : list A) (acc : list B) :
  Js.forEach arr (fun acc x => Js.push (Js.push acc flag) (f x)) acc
  = acc ++ flat_map (fun x => [flag; f x]) arr.
Proof.
  unfold Js.forEach, Js.push. revert acc.
  induction arr as [|x arr IH]; intros acc; simpl.
  - now rewrite app_nil_r.
  - rewrite IH, <- !app_assoc. reflexivity.
Qed.

(** ** Helm: override parsing *)

Lemma getOverrideValues_map (overrides : list string) :
  HelmRenderEngine.getOverrideValues overrides
  = map (fun token => {| name := Spec.beforeFirst ":" token;
                         value := Spec.afterFirst ":" token |}) overrides.
Proof.
  unfold HelmRenderEngine.getOverrideValues.
  rewrite (forEach_push
             (fun arg => {| name := hd EmptyString (Js.split ":" arg);
                            value := Js.join ":" (Js.slice1 (Js.split ":" arg)) |})).
  simpl. apply map_ext. intros token.
  now rewrite hd_split, (tl_split ":" token).
Qed.

(** C2.  Every override token is split at its first colon only: for a
    token made of a colon-free name, a colon and any value (which may hold
    further colons), the pair parsed at that position of the overrides
    array has exactly that name and exactly that value; the tokens around
    it are parsed independently. *)
Theorem override_split_at_first_colon
        (before after : list string) (n v : string) :
  Spec.occurs ":" n = false ->
  HelmRenderEngine.getOverrideValues (before ++ (n ++ String ":" v)%string :: after)
  = HelmRenderEngine.getOverrideValues before
      ++ {| name := n; value := v |} :: HelmRenderEngine.getOverrideValues after.
Proof.
  intros Hn. rewrite !getOverrideValues_map, map_app. simpl.
  now rewrite beforeFirst_app, afterFirst_app.
Qed.

(** The two tokens the specification lists, and a value with colons. *)
Lemma override_split_examples :
  Spec.occurs ":" "image.tag" = false
  /\ HelmRenderEngine.getOverrideValues
       ["replicaCount:3"; "image.tag:v1.2.3"; "registry:host:5000/app"]
     = [ {| name := "replicaCount"; value := "3" |};
         {| name := "image.tag"; value := "v1.2.3" |};
         {| name := "registry"; value := "host:5000/app" |} ].
Proof.
  split; [reflexivity|].
  exact (override_split_at_first_colon
           ["replicaCount:3"] ["registry:host:5000/app"] "image.tag" "v1.2.3"
           eq_refl).
Defined.

(** ** Helm: the argument list *)

Lemma split_length_pos (c : ascii) (s : string) :
  (0 <? length (Js.split c s))%nat = true.
Proof.
  pose proof (split_nonempty c s) as H.
  destruct (Js.split c s); [contradiction|reflexivity].
Qed.

Lemma flat_map_of_map {A B C : Type} (g : A -> B) (f : B -> list C) (l : list A) :
  flat_map f (map g l) = flat_map (fun x => f (g x)) l.
Proof.
  induction l as [|x l IH]; simpl; [reflexivity|now rewrite IH].
Qed.

(** [getTemplateArgs] in full, for a chart variable that is not empty:
    the argument list, and the debug lines it writes on the way (one per
    optional block entered). *)
Lemma getTemplateArgs_raw (h : Host) (s : State) :
  host_env_input h "helmChart" <> EmptyString ->
  HelmRenderEngine.getTemplateArgs h s
  = (Returned (Spec.helmArgs (host_input h "helmChart")
                             (host_input h "releaseName")
                             (host_input h "overrideFiles")
                             (host_input h "overrides")),
     {| clockReads := clockReads s;
        trace := trace s
                   ++ (if truthy (host_input h "overrideFiles")
                       then [ECoreDebug "Adding overrides file inputs"] else [])
                   ++ (if truthy (host_input h "overrides")
                       then [ECoreDebug "Adding overrides inputs"] else []) |}).
Proof.
  intros Hchart.
  unfold HelmRenderEngine.getTemplateArgs, Spec.helmArgs.
  rewrite !getInput_optional, (getInput_raw h "helmChart" Hchart).
  generalize (host_input h "helmChart"). intros chartPath.
  destruct (host_input h "overrideFiles") as [|f files];
    destruct (host_input h "overrides") as [|o overrides];
    destruct (host_input h "releaseName") as [|r release];
    unfold Spec.entries, bind, ret, core.debug, emit;
    cbn -[Js.split Js.forEach HelmRenderEngine.getOverrideValues
          flat_map app Nat.ltb];
    rewrite ?split_length_pos;
    cbn -[Js.split Js.forEach HelmRenderEngine.getOverrideValues flat_map app];
    rewrite ?(forEach_push2 "-f" (fun file : string => file)),
            ?(forEach_push2 "--set"
                (fun ov : NameValuePair => (name ov ++ "=" ++ value ov)%string)),
            ?getOverrideValues_map, ?flat_map_of_map;
    unfold Js.push; cbn [flat_map];
    rewrite <- ?app_assoc, ?app_nil_r; destruct s; reflexivity.
Qed.

(** The same for a chart input that is supplied. *)
Lemma getTemplateArgs_returns (h : Host) (s : State) :
  host_input h "helmChart" <> EmptyString ->
  HelmRenderEngine.getTemplateArgs h s
  = (Returned (Spec.helmArgs (host_input h "helmChart")
                             (host_input h "releaseName")
                             (host_input h "overrideFiles")
                             (host_input h "overrides")),
     {| clockReads := clockReads s;
        trace := trace s
                   ++ (if truthy (host_input h "overrideFiles")
                       then [ECoreDebug "Adding overrides file inputs"] else [])
                   ++ (if truthy (host_input h "overrides")
                       then [ECoreDebug "Adding overrides inputs"] else []) |}).
Proof. intros Hchart. apply getTemplateArgs_raw. now apply supplied_raw. Qed.

(** C1.  With the chart path supplied, [getTemplateArgs] returns exactly
    [template], the chart path, then [--name] and the release name if one
    is supplied, then one [-f file] pair per entry of the newline-split
    override-files input in input order, then one [--set name=value] pair
    per entry of the newline-split overrides input in input order. *)
Theorem helm_args_in_order (h : Host) (s : State) :
  host_input h "helmChart" <> EmptyString ->
  fst (HelmRenderEngine.getTemplateArgs h s)
  = Returned (Spec.helmArgs (host_input h "helmChart")
                            (host_input h "releaseName")
                            (host_input h "overrideFiles")
                            (host_input h "overrides")).
Proof. intros Hchart. now rewrite getTemplateArgs_returns. Qed.

(** The chart, release, two override files and two overrides of
    [helmInputs]. *)
Lemma helm_args_example :
  host_input (runner helmInputs (fun _ => EmptyString) (Returned JNull)) "helmChart"
    <> EmptyString
  /\ fst (HelmRenderEngine.getTemplateArgs
            (runner helmInputs (fun _ => EmptyString) (Returned JNull)) initial)
     = Returned ["template"; "./chart"; "--name"; "web";
                 "-f"; "values.yaml"; "-f"; "prod.yaml";
                 "--set"; "image.tag=v1.2.3"; "--set"; "replicaCount=3"].
Proof.
  split; [discriminate|].
  exact (helm_args_in_order
           (runner helmInputs (fun _ => EmptyString) (Returned JNull)) initial
           ltac:(discriminate)).
Defined.

(** ** Engine selection *)

Lemma engine_selection_cases (renderType : string) (s : State) :
  (renderType = "helm2" /\ selectEngine renderType s = (Returned Helm, s))
  \/ (renderType = "kompose" /\ selectEngine renderType s = (Returned Kompose, s))
  \/ (renderType = "kustomize" /\ selectEngine renderType s = (Returned Kustomize, s))
  \/ (renderType <> "helm2" /\ renderType <> "kompose" /\ renderType <> "kustomize"
      /\ selectEngine renderType s = (Thrown (Error "Unknown render engine"), s)).
Proof.
  unfold selectEngine.
  destruct (String.eqb_spec renderType "helm2") as [->|H1]; [now left|].
  destruct (String.eqb_spec renderType "kompose") as [->|H2]; [now right; left|].
  destruct (String.eqb_spec renderType "kustomize") as [->|H3];
    [now right; right; left|].
  right; right; right. repeat split; assumption.
Qed.

(** C3.  The [switch] of [run] maps [helm2] to the Helm engine, [kompose]
    to the Kompose engine and [kustomize] to the Kustomize engine, and for
    every other string throws the unknown-engine error, selecting
    nothing; the state is left as it was. *)
Theorem engine_selection (renderType : string) (s : State) :
  (renderType = "helm2" /\ selectEngine renderType s = (Returned Helm, s))
  \/ (renderType = "kompose" /\ selectEngine renderType s = (Returned Kompose, s))
  \/ (renderType = "kustomize" /\ selectEngine renderType s = (Returned Kustomize, s))
  \/ (renderType <> "helm2" /\ renderType <> "kompose" /\ renderType <> "kustomize"
      /\ selectEngine renderType s = (Thrown (Error "Unknown render engine"), s)).
Proof. exact (engine_selection_cases renderType s). Qed.

(** The tags are pairwise distinct, so the mapping is one to one. *)
Lemma engine_selection_injective (r1 r2 : string) (k : EngineKind) (s : State) :
  selectEngine r1 s = (Returned k, s) ->
  selectEngine r2 s = (Returned k, s) ->
  r1 = r2.
Proof.
  intros E1 E2.
  destruct (engine_selection_cases r1 s) as [[-> F1]|[[-> F1]|[[-> F1]|(_ & _ & _ & F1)]]];
    destruct (engine_selection_cases r2 s) as [[-> F2]|[[-> F2]|[[-> F2]|(_ & _ & _ & F2)]]];
    congruence.
Qed.

(** ** What each step adds to the trace *)

Lemma outputs_app (t1 t2 : list Event) :
  outputs (t1 ++ t2) = outputs t1 ++ outputs t2.
Proof.
  induction t1 as [|ev t1 IH]; simpl; [reflexivity|].
  destruct ev; simpl; now rewrite IH.
Qed.

Lemma execs_app (t1 t2 : list Event) :
  execs (t1 ++ t2) = execs t1 ++ execs t2.
Proof.
  induction t1 as [|ev t1 IH]; simpl; [reflexivity|].
  destruct ev; simpl; now rewrite IH.
Qed.

Create HintDb quiet.

Ltac nothing_added := exists []; split; [now rewrite app_nil_r|reflexivity].
Ltac one_added ev := exists [ev]; split; reflexivity.

Lemma quiet_ret {A} (a : A) : quiet (ret a).
Proof. intros s. nothing_added. Qed.

Lemma quiet_throw {A} (e : JsError) : quiet (@throw A e).
Proof. intros s. nothing_added. Qed.

Lemma quiet_bind {A B} (c : Action A) (k : A -> Action B) :
  quiet c -> (forall a, quiet (k a)) -> quiet (bind c k).
Proof.
  intros Hc Hk s. unfold bind.
  destruct (Hc s) as (a1 & E1 & O1).
  destruct (c s) as [[a|e] s1]; simpl in E1.
  - destruct (Hk a s1) as (a2 & E2 & O2).
    exists (a1 ++ a2). split.
    + now rewrite E2, E1, app_assoc.
    + now rewrite outputs_app, O1, O2.
  - exists a1. now split.
Qed.

Lemma quiet_if {A} (b : bool) (c1 c2 : Action A) :
  quiet c1 -> quiet c2 -> quiet (if b then c1 else c2).
Proof. now destruct b. Qed.

Lemma quiet_await {A} (p : Promise A) : quiet (await p).
Proof. intros s. nothing_added. Qed.

Lemma quiet_getInput (h : Host) (n : string) (required : bool) :
  quiet (core.getInput h n required).
Proof.
  unfold core.getInput.
  destruct (required && negb (truthy (host_env_input h n)));
    [apply quiet_throw|apply quiet_ret].
Qed.

Lemma quiet_debug (msg : string) : quiet (core.debug msg).
Proof. intros s. one_added (ECoreDebug msg). Qed.

Lemma quiet_console_log (msg : string) : quiet (console.log msg).
Proof. intros s. one_added (EConsoleLog msg). Qed.

Lemma quiet_core_log (msg : string) : quiet (core.log msg).
Proof. apply quiet_throw. Qed.

Lemma quiet_evaluate {A} (o : Outcome A) : quiet (evaluate o).
Proof. intros s. nothing_added. Qed.

Lemma quiet_getCurrentTime (h : Host) : quiet (utilities.getCurrentTime h).
Proof. intros s. nothing_added. Qed.

Lemma quiet_execCommand (h : Host) tool args options :
  quiet (awaiting (utilities.execCommand h tool args options)).
Proof.
  intros s. unfold awaiting, utilities.execCommand, bind, emit, ret, await. simpl.
  destruct (host_exec h tool args options); one_added (EExec tool args options).
Qed.

Lemma quiet_writeFileSync (h : Host) (path data : string) :
  quiet (fs.writeFileSync h path data).
Proof.
  intros s. unfold fs.writeFileSync, bind, emit. simpl.
  destruct (host_writeFile h path data); one_added (EWriteFile path data).
Qed.

Lemma quiet_JSON_parse (h : Host) (text : string) : quiet (JSON.parse h text).
Proof. intros s. nothing_added. Qed.

#[export] Hint Resolve quiet_ret quiet_throw quiet_await quiet_getInput quiet_debug
  quiet_console_log quiet_core_log quiet_getCurrentTime quiet_execCommand
  quiet_writeFileSync quiet_JSON_parse quiet_evaluate : quiet.

(** Splits a sequence into its steps and settles each from the hints. *)
Ltac quiet_steps :=
  repeat first
    [ solve [auto with quiet]
    | apply quiet_bind; [|intros]
    | apply quiet_if
    | match goal with
      | |- quiet (match ?x with _ => _ end) => destruct x
      end ].

Lemma quiet_getTemplatePath (h : Host) : quiet (RenderEngine.getTemplatePath h).
Proof. unfold RenderEngine.getTemplatePath. quiet_steps. Qed.

Lemma quiet_getTemplateArgs (h : Host) : quiet (HelmRenderEngine.getTemplateArgs h).
Proof. unfold HelmRenderEngine.getTemplateArgs. quiet_steps. Qed.

Lemma quiet_validateKustomize (h : Host) (kubectlPath : string) :
  quiet (KustomizeRenderEngine.validateKustomize h kubectlPath).
Proof.
  unfold KustomizeRenderEngine.validateKustomize,
         KustomizeRenderEngine.clientVersionOf.
  quiet_steps.
Qed.

#[export] Hint Resolve quiet_getTemplatePath quiet_getTemplateArgs
  quiet_validateKustomize : quiet.

Lemma allOrNothing_throw (e : JsError) : allOrNothing (throw e).
Proof. intros s. exists []. split; [reflexivity|]. simpl. now rewrite app_nil_r. Qed.

Lemma allOrNothing_setOutput (path : string) :
  allOrNothing (core.setOutput "manifestsBundle" path).
Proof. intros s. exists []. split; [reflexivity|]. simpl. now exists path. Qed.

Lemma allOrNothing_bind {A} (c : Action A) (k : A -> Action unit) :
  quiet c -> (forall a, allOrNothing (k a)) -> allOrNothing (bind c k).
Proof.
  intros Hc Hk s. unfold bind.
  destruct (Hc s) as (a1 & E1 & O1).
  destruct (c s) as [[a|e] s1]; simpl in E1.
  - destruct (Hk a s1) as (a2 & O2 & E2).
    exists (a1 ++ a2). split; [now rewrite outputs_app, O1, O2|].
    destruct (k a s1) as [[u|e] s2].
    + destruct E2 as [path E2]. exists path.
      now rewrite E2, E1, <- !app_assoc.
    + now rewrite E2, E1, app_assoc.
  - exists a1. now split.
Qed.

Ltac allOrNothing_steps :=
  repeat first
    [ apply allOrNothing_setOutput
    | apply allOrNothing_throw
    | apply allOrNothing_bind; [solve [auto with quiet]|intros]
    | match goal with
      | |- allOrNothing (if ?b then _ else _) => destruct b
      end ].

Lemma allOrNothing_bake (h : Host) (renderEngine : EngineKind) :
  allOrNothing (bake h renderEngine).
Proof.
  destruct renderEngine; unfold bake.
  - unfold HelmRenderEngine.bake. allOrNothing_steps.
  - unfold KomposeRenderEngine.bake. allOrNothing_steps.
  - unfold KustomizeRenderEngine.bake. allOrNothing_steps.
Qed.

(** ** The orchestrator *)

Lemma append_empty_r (s : string) : (s ++ "")%string = s.
Proof. induction s as [|a s IH]; simpl; [reflexivity|now rewrite IH]. Qed.

Lemma format_err_bake (h : Host) (err : JsError) :
  Error (util.format_err h "Failed to run bake action. Error: %s" err)
  = wrappedFailure h err.
Proof.
  unfold util.format_err, wrappedFailure. simpl. now rewrite append_empty_r.
Qed.

Lemma runBake_thrown (h : Host) (renderEngine : EngineKind) (s s' : State)
      (err : JsError) :
  bake h renderEngine s = (Thrown err, s') ->
  runBake h renderEngine s = (Thrown (wrappedFailure h err), s').
Proof.
  intros Hbake. unfold runBake, tryCatch, throw.
  now rewrite Hbake, format_err_bake.
Qed.

(** What the [try]/[catch] of [run] makes of the way [bake()] ends: a
    thrown error is wrapped, in the same state and with no output
    reported; a return is left alone, the one output [manifestsBundle]
    being the last act of the call. *)
Lemma runBake_outcome (h : Host) (renderEngine : EngineKind) (s : State) :
  match bake h renderEngine s with
  | (Thrown err, s') =>
      runBake h renderEngine s = (Thrown (wrappedFailure h err), s')
      /\ outputs (trace s') = outputs (trace s)
  | (Returned _, s') =>
      runBake h renderEngine s = (Returned tt, s')
      /\ exists earlier path,
           trace s' = trace s ++ earlier ++ [ESetOutput "manifestsBundle" path]
           /\ outputs earlier = []
  end.
Proof.
  destruct (allOrNothing_bake h renderEngine s) as (added & O & E).
  unfold runBake, tryCatch, throw.
  destruct (bake h renderEngine s) as [[[]|err] s'].
  - split; [reflexivity|]. destruct E as [path E]. now exists added, path.
  - split; [now rewrite format_err_bake|].
    now rewrite E, outputs_app, O, app_nil_r.
Qed.

(** C10.  With a [renderEngine] input that is supplied but is none of the
    three tags, [run] throws the unknown-engine error right after its two
    log lines, before the [try] around [bake()]: the error is not of the
    wrapped form, whatever error the wrapping would have embedded. *)
Theorem unknown_engine_not_wrapped (h : Host) (s : State) :
  host_input h "renderEngine" <> EmptyString ->
  host_input h "renderEngine" <> "helm2" ->
  host_input h "renderEngine" <> "kompose" ->
  host_input h "renderEngine" <> "kustomize" ->
  run h s = (Thrown (Error "Unknown render engine"),
             {| clockReads := clockReads s;
                trace := (trace s ++ [EConsoleLog "in run"]) ++ [ECoreDebug "in run"] |})
  /\ forall err, Error "Unknown render engine" <> bakeFailure err.
Proof.
  intros Hsupplied H1 H2 H3. split; [|discriminate].
  unfold run. rewrite (getInput_supplied h "renderEngine" Hsupplied).
  unfold bind, ret, console.log, core.debug, emit. cbn [clockReads trace].
  match goal with
  | |- context [selectEngine ?r ?st] =>
      destruct (engine_selection_cases r st) as [[F _]|[[F _]|[[F _]|(_ & _ & _ & F)]]]
  end; try congruence.
  now rewrite F.
Qed.

(** The engine name [helm3]. *)
Lemma unknown_engine_example :
  run (runner unknownInputs (fun _ => EmptyString) (Returned JNull)) initial
  = (Thrown (Error "Unknown render engine"),
     {| clockReads := 0; trace := [EConsoleLog "in run"; ECoreDebug "in run"] |}).
Proof.
  exact (proj1 (unknown_engine_not_wrapped
                  (runner unknownInputs (fun _ => EmptyString) (Returned JNull))
                  initial
                  ltac:(discriminate) ltac:(discriminate)
                  ltac:(discriminate) ltac:(discriminate))).
Defined.

(** ** Kustomize: the version gate *)

Lemma versionPolicy_iff (major minor : option Z) :
  Spec.versionPolicy major minor = true
  <-> exists M m, major = Some M /\ minor = Some m /\ (1 <= M)%Z /\ (14 <= m)%Z.
Proof.
  unfold Spec.versionPolicy. split.
  - destruct major as [M|], minor as [m|]; try discriminate.
    intros H. apply andb_true_iff in H. destruct H as [H1 H2].
    exists M, m. repeat split; now apply Z.leb_le.
  - intros (M & m & -> & -> & H1 & H2).
    apply andb_true_iff. split; now apply Z.leb_le.
Qed.

Lemma versionAccepted_policy (cv : json) (major minor : string) :
  truthy cv = true ->
  ToString (getProp cv "major") = Returned major ->
  ToString (getProp cv "minor") = Returned minor ->
  KustomizeRenderEngine.versionAccepted (Some cv)
  = Returned (Spec.versionPolicy (ParseInt.parseInt major) (ParseInt.parseInt minor)).
Proof.
  intros Hcv Hmajor Hminor.
  unfold KustomizeRenderEngine.versionAccepted, Spec.versionPolicy.
  rewrite Hcv, Hmajor, Hminor.
  destruct (ParseInt.parseInt major) as [M|];
    destruct (ParseInt.parseInt minor) as [m|];
    cbn [ParseInt.geq]; try reflexivity;
    destruct (1 <=? M)%Z; reflexivity.
Qed.

(** C5.  When kubectl prints a version document whose [clientVersion] is
    truthy and whose [major] and [minor] have a text (as strings, numbers
    and every value but an object with a [toString] field have), the gate
    parses the two texts as integers and returns exactly when
    major >= 1 and minor >= 14; otherwise it throws the
    unsupported-client-version error.  Either way nothing but the kubectl
    invocation has happened. *)
Theorem version_gate_policy
        (h : Host) (kubectlPath : string) (s : State)
        (out : ExecResult) (parsed cv : json) (majorText minorText : string) :
  host_exec h kubectlPath versionArgs None = Returned out ->
  stdout out <> EmptyString ->
  host_JSON_parse h (stdout out) = Returned parsed ->
  getProp parsed "clientVersion" = Some cv ->
  truthy cv = true ->
  ToString (getProp cv "major") = Returned majorText ->
  ToString (getProp cv "minor") = Returned minorText ->
  let major := ParseInt.parseInt majorText in
  let minor := ParseInt.parseInt minorText in
  KustomizeRenderEngine.validateKustomize h kubectlPath s
  = (if Spec.versionPolicy major minor
     then Returned tt else Thrown unsupportedClientVersion,
     spawned s kubectlPath versionArgs None)
  /\ (Spec.versionPolicy major minor = true
      <-> exists M m, major = Some M /\ minor = Some m /\ (1 <= M)%Z /\ (14 <= m)%Z).
Proof.
  intros Hexec Hout Hparse Hcv Htruthy Hmajor Hminor major minor.
  split; [|apply versionPolicy_iff].
  unfold KustomizeRenderEngine.validateKustomize, awaiting, utilities.execCommand,
    bind, emit, ret, await, JSON.parse, KustomizeRenderEngine.clientVersionOf, evaluate.
  fold versionArgs. rewrite Hexec.
  destruct (stdout out) as [|c text] eqn:Eout; [congruence|].
  cbn [truthy string_ToBoolean]. rewrite Hparse.
  destruct parsed; try discriminate Hcv.
  unfold ret, throw.
  rewrite Hcv, (versionAccepted_policy cv majorText minorText Htruthy Hmajor Hminor).
  fold major minor. unfold spawned.
  now destruct (Spec.versionPolicy major minor).
Qed.

(** The four versions the specification lists, with the numbers given as
    strings (as kubectl prints them) and as JSON numbers: 1.14 and 1.20
    pass, 1.13 and 2.0 are refused. *)
Lemma version_gate_examples :
  let gate major minor :=
    fst (KustomizeRenderEngine.validateKustomize
           (runner kustomizeInputs kubectlReply
                   (Returned (clientVersion major minor)))
           "/usr/bin/kubectl" initial) in
  gate (JStr "1") (JStr "14") = Returned tt
  /\ gate (JStr "1") (JStr "20") = Returned tt
  /\ gate (JStr "1") (JStr "13") = Thrown unsupportedClientVersion
  /\ gate (JStr "2") (JStr "0") = Thrown unsupportedClientVersion
  /\ gate (JNum "1") (JNum "14") = Returned tt
  /\ gate (JNum "1") (JNum "20") = Returned tt
  /\ gate (JNum "1") (JNum "13") = Thrown unsupportedClientVersion
  /\ gate (JNum "2") (JNum "0") = Thrown unsupportedClientVersion.
Proof.
  pose (host := fun major minor =>
          runner kustomizeInputs kubectlReply
                 (Returned (clientVersion major minor))).
  pose (use := fun major minor majorText minorText
                   (Hmajor : ToString (Some major) = Returned majorText)
                   (Hminor : ToString (Some minor) = Returned minorText) =>
          f_equal fst
            (proj1 (version_gate_policy (host major minor) "/usr/bin/kubectl" initial
                      {| stdout := "{...}"; stderr := "" |}
                      (clientVersion major minor)
                      (JObj [("major", major); ("minor", minor)])
                      majorText minorText
                      eq_refl ltac:(discriminate) eq_refl eq_refl eq_refl
                      Hmajor Hminor))).
  exact (conj (use (JStr "1") (JStr "14") "1" "14" eq_refl eq_refl)
        (conj (use (JStr "1") (JStr "20") "1" "20" eq_refl eq_refl)
        (conj (use (JStr "1") (JStr "13") "1" "13" eq_refl eq_refl)
        (conj (use (JStr "2") (JStr "0") "2" "0" eq_refl eq_refl)
        (conj (use (JNum "1") (JNum "14") "1" "14" eq_refl eq_refl)
        (conj (use (JNum "1") (JNum "20") "1" "20" eq_refl eq_refl)
        (conj (use (JNum "1") (JNum "13") "1" "13" eq_refl eq_refl)
              (use (JNum "2") (JNum "0") "2" "0" eq_refl eq_refl)))))))).
Defined.

(** A version document without a usable [clientVersion] is refused. *)
Lemma version_gate_without_clientVersion
      (h : Host) (kubectlPath : string) (s : State) (out : ExecResult) (parsed : json) :
  host_exec h kubectlPath versionArgs None = Returned out ->
  stdout out <> EmptyString ->
  host_JSON_parse h (stdout out) = Returned parsed ->
  parsed <> JNull ->
  truthy (getProp parsed "clientVersion") = false ->
  KustomizeRenderEngine.validateKustomize h kubectlPath s
  = (Thrown unsupportedClientVersion, spawned s kubectlPath versionArgs None).
Proof.
  intros Hexec Hout Hparse Hnull Hcv.
  unfold KustomizeRenderEngine.validateKustomize, awaiting, utilities.execCommand,
    bind, emit, ret, await, JSON.parse, KustomizeRenderEngine.clientVersionOf, evaluate.
  fold versionArgs. rewrite Hexec.
  destruct (stdout out) as [|c text] eqn:Eout; [congruence|].
  cbn [truthy string_ToBoolean]. rewrite Hparse.
  assert (Hacc : KustomizeRenderEngine.versionAccepted (getProp parsed "clientVersion")
                 = Returned false).
  { unfold KustomizeRenderEngine.versionAccepted.
    destruct (getProp parsed "clientVersion") as [cv|]; [|reflexivity].
    cbn in Hcv. now rewrite Hcv. }
  destruct parsed; try congruence; unfold ret, throw; now rewrite Hacc.
Qed.

(** C9.  When [kubectl version --client=true -o json] prints nothing, the
    gate returns without parsing or comparing anything, and [bake()] goes
    on to spawn [kubectl kustomize] on the kustomization path: the two
    kubectl invocations are the processes the call spawns. *)
Theorem empty_version_output_skips_gate
        (h : Host) (kubectlPath : string) (s : State) (out : ExecResult) :
  host_kubectlPath h = Returned kubectlPath ->
  host_exec h kubectlPath versionArgs None = Returned out ->
  stdout out = EmptyString ->
  host_input h "kustomizationPath" <> EmptyString ->
  KustomizeRenderEngine.validateKustomize h kubectlPath s
  = (Returned tt, spawned s kubectlPath versionArgs None)
  /\ execs (trace (snd (KustomizeRenderEngine.bake h s)))
     = execs (trace s)
         ++ [(kubectlPath, versionArgs);
             (kubectlPath, ["kustomize"; host_input h "kustomizationPath"])].
Proof.
  intros Hkubectl Hexec Hout Hinput.
  assert (Hgate : KustomizeRenderEngine.validateKustomize h kubectlPath s
                  = (Returned tt, spawned s kubectlPath versionArgs None)).
  { unfold KustomizeRenderEngine.validateKustomize, awaiting, utilities.execCommand,
      bind, emit, ret, await.
    fold versionArgs. rewrite Hexec, Hout. reflexivity. }
  split; [exact Hgate|].
  unfold KustomizeRenderEngine.bake, getKubectlPath.
  unfold bind at 1. unfold await at 1. rewrite Hkubectl.
  unfold bind at 1. rewrite Hgate.
  rewrite (getInput_supplied h "kustomizationPath" Hinput), getInput_optional.
  set (kustomizationPath := host_input h "kustomizationPath").
  cbn [negb truthy Promise_ToBoolean].
  unfold RenderEngine.getTemplatePath, awaiting, utilities.execCommand,
    utilities.getCurrentTime, fs.writeFileSync, core.setOutput, core.debug,
    console.log, bind, emit, ret, throw, await, spawned.
  cbn [clockReads trace].
  destruct (host_exec h kubectlPath ["kustomize"; kustomizationPath]
                      (Some {| silent := true |})) as [result|err];
    [|cbn [snd trace]; rewrite !execs_app; cbn [execs app];
      now rewrite ?app_nil_r, <- ?app_assoc].
  destruct (host_RUNNER_TEMP h) as [[|d dir]|];
    cbn [truthy option_ToBoolean string_ToBoolean clockReads trace];
    try destruct (host_writeFile h _ _);
    cbn [snd trace]; rewrite !execs_app; cbn [execs app];
    now rewrite ?app_nil_r, <- ?app_assoc.
Qed.

(** A kubectl that prints nothing for [version]: no version is parsed, and
    the overlay is rendered and reported. *)
Lemma empty_version_output_example :
  fst (KustomizeRenderEngine.validateKustomize
         (runner kustomizeInputs silentKubectlReply (Thrown (Error "never parsed")))
         "/usr/bin/kubectl" initial)
  = Returned tt
  /\ execs (trace (snd (KustomizeRenderEngine.bake
                          (runner kustomizeInputs silentKubectlReply
                                  (Thrown (Error "never parsed")))
                          initial)))
     = [("/usr/bin/kubectl", versionArgs);
        ("/usr/bin/kubectl", ["kustomize"; "missing/overlay"])].
Proof.
  pose (use := empty_version_output_skips_gate
                 (runner kustomizeInputs silentKubectlReply
                         (Thrown (Error "never parsed")))
                 "/usr/bin/kubectl" initial {| stdout := ""; stderr := "" |}
                 eq_refl eq_refl eq_refl ltac:(discriminate)).
  exact (conj (f_equal fst (proj1 use)) (proj2 use)).
Defined.

(** ** [path.join] of a directory and a plain file name *)

Lemma append_assoc_string (x y z : string) :
  ((x ++ y) ++ z)%string = (x ++ y ++ z)%string.
Proof. induction x as [|a x IH]; simpl; [reflexivity|now rewrite IH]. Qed.

Lemma occurs_app (c : ascii) (x y : string) :
  Spec.occurs c (x ++ y) = Spec.occurs c x || Spec.occurs c y.
Proof.
  induction x as [|a x IH]; simpl; [reflexivity|].
  now rewrite IH, orb_assoc.
Qed.

Lemma split_without_sep (c : ascii) (b : string) :
  Spec.occurs c b = false -> Js.split c b = [b].
Proof.
  induction b as [|a b IH]; simpl; intros H; [reflexivity|].
  apply orb_false_iff in H. destruct H as [Hac H].
  now rewrite Hac, IH.
Qed.

Lemma split_app_sep (c : ascii) (x y : string) :
  Js.split c (x ++ String c y) = Js.split c x ++ Js.split c y.
Proof.
  induction x as [|a x IH].
  - simpl. now rewrite Ascii.eqb_refl.
  - change ((String a x ++ String c y)%string) with (String a (x ++ String c y)).
    destruct (Ascii.eqb a c) eqn:Hac.
    + simpl. rewrite Hac. simpl. now rewrite IH.
    + rewrite !split_cons_other by assumption. rewrite IH.
      pose proof (split_nonempty c x) as Hne.
      destruct (Js.split c x); [contradiction|reflexivity].
Qed.

Lemma step_plain (allow : bool) (res : list string) (b : string) :
  b <> EmptyString -> b <> "." -> b <> ".." ->
  Path.step allow res b = b :: res.
Proof.
  intros H0 H1 H2. unfold Path.step.
  apply String.eqb_neq in H0, H1, H2. now rewrite H0, H1, H2.
Qed.

Lemma join_cons2 (x : string) (l : list string) :
  l <> [] -> Js.join "/" (x :: l) = (x ++ "/" ++ Js.join "/" l)%string.
Proof. destruct l; [congruence|reflexivity]. Qed.

Lemma join_snoc (l : list string) (b : string) :
  Js.join "/" (l ++ [b]) = (Path.slashed l ++ b)%string.
Proof.
  induction l as [|x l IH]; [reflexivity|].
  change ((x :: l) ++ [b]) with (x :: (l ++ [b])).
  rewrite join_cons2 by (destruct l; discriminate).
  rewrite IH. simpl. now rewrite !append_assoc_string.
Qed.

Lemma join_slashed (l : list string) :
  l <> [] -> Path.slashed l = (Js.join "/" l ++ "/")%string.
Proof.
  induction l as [|x l IH]; [congruence|]. intros _.
  destruct l as [|y l]; [reflexivity|].
  rewrite join_cons2 by discriminate.
  change (Path.slashed (x :: y :: l)) with (x ++ "/" ++ Path.slashed (y :: l))%string.
  rewrite IH by discriminate. now rewrite !append_assoc_string.
Qed.

Lemma endsWithSlash_app (x y : string) :
  y <> EmptyString -> Path.endsWithSlash (x ++ y) = Path.endsWithSlash y.
Proof.
  intros Hy. induction x as [|a x IH]; [reflexivity|].
  change ((String a x ++ y)%string) with (String a (x ++ y)).
  destruct (x ++ y)%string as [|c rest] eqn:E.
  - destruct x; [simpl in E; congruence|discriminate].
  - exact IH.
Qed.

Lemma endsWithSlash_without_slash (b : string) :
  Spec.occurs "/" b = false -> Path.endsWithSlash b = false.
Proof.
  induction b as [|a b IH]; [reflexivity|]. simpl Spec.occurs. intros H.
  apply orb_false_iff in H. destruct H as [Ha Hb].
  destruct b as [|c rest]; [exact Ha|]. now apply IH.
Qed.

(** Joining a directory and a plain file name: the file name is kept as
    the last segment, after a prefix that only depends on the directory. *)
Lemma path_join_under (dir file : string) :
  dir <> EmptyString -> file <> EmptyString ->
  Spec.occurs "/" file = false -> file <> "." -> file <> ".." ->
  Path.join dir file = (Path.under dir ++ file)%string.
Proof.
  intros Hdir Hfile Hslash Hdot Hdots.
  destruct dir as [|d dir]; [congruence|].
  destruct file as [|f file]; [congruence|].
  set (a := String d dir) in *. set (b := String f file) in *.
  assert (Hjoin : Path.join a b = Path.normalize (a ++ String "/" b)) by reflexivity.
  rewrite Hjoin. clear Hjoin.
  assert (Habs : Path.isAbsolute (a ++ String "/" b) = Path.isAbsolute a) by reflexivity.
  assert (Hnorm : Path.normalizeString (a ++ String "/" b) (negb (Path.isAbsolute a))
                  = (Path.slashed (Path.segments a) ++ b)%string).
  { unfold Path.normalizeString, Path.segments.
    rewrite split_app_sep, (split_without_sep "/" b Hslash), fold_left_app.
    simpl fold_left at 1. rewrite step_plain by assumption.
    simpl rev. apply join_snoc. }
  assert (Htrail : Path.endsWithSlash (a ++ String "/" b) = false).
  { rewrite endsWithSlash_app by discriminate.
    change (Path.endsWithSlash (String "/" b)) with (Path.endsWithSlash b).
    now apply endsWithSlash_without_slash. }
  unfold Path.normalize, Path.under.
  change ((a ++ String "/" b)%string) with (String d (dir ++ String "/" b)) at 1.
  cbv iota beta. rewrite Habs, Hnorm, Htrail.
  generalize (Path.slashed (Path.segments a)) (Path.isAbsolute a).
  intros prefix abs. unfold b.
  destruct prefix as [|c rest]; destruct abs; reflexivity.
Qed.

Lemma normalize_nonempty (path : string) :
  path <> EmptyString ->
  Path.normalize path
  = match Js.join "/" (Path.segments path) with
    | EmptyString =>
        if Path.isAbsolute path then "/"
        else if Path.endsWithSlash path then "./" else "."
    | p =>
        let p := if Path.endsWithSlash path then (p ++ "/")%string else p in
        if Path.isAbsolute path then ("/" ++ p)%string else p
    end.
Proof.
  intros Hne. destruct path as [|c rest]; [congruence|].
  unfold Path.normalize, Path.normalizeString.
  fold (Path.segments (String c rest)).
  destruct (Js.join "/" (Path.segments (String c rest))); reflexivity.
Qed.

(** A directory already in normal form is itself the prefix. *)
Lemma under_normal_dir (dir : string) :
  Path.normalize dir = dir -> Path.endsWithSlash dir = false -> dir <> "." ->
  Path.under dir = (dir ++ "/")%string.
Proof.
  intros Hnorm Htrail Hdot.
  assert (Hne : dir <> EmptyString) by (intros ->; discriminate Hnorm).
  rewrite (normalize_nonempty dir Hne), Htrail in Hnorm.
  unfold Path.under.
  destruct (Path.segments dir) as [|seg segs] eqn:Esegs.
  - simpl in Hnorm. destruct (Path.isAbsolute dir).
    + rewrite <- Hnorm in Htrail. discriminate.
    + congruence.
  - rewrite join_slashed by discriminate.
    destruct (Js.join "/" (seg :: segs)) as [|c rest] eqn:Ejoin.
    + destruct (Path.isAbsolute dir).
      * rewrite <- Hnorm in Htrail. discriminate.
      * congruence.
    + cbv zeta in Hnorm.
      destruct (Path.isAbsolute dir); rewrite <- Hnorm; reflexivity.
Qed.

(** ** The name of the baked manifest *)

Lemma string_of_uint_no_slash (d : Decimal.uint) :
  Spec.occurs "/" (NilEmpty.string_of_uint d) = false.
Proof. induction d; simpl; assumption || reflexivity. Qed.

Lemma numberToString_no_slash (n : Z) :
  Spec.occurs "/" (numberToString n) = false.
Proof.
  unfold numberToString, NilEmpty.string_of_int.
  destruct (Z.to_int n); simpl; apply string_of_uint_no_slash.
Qed.

Lemma numberToString_inj (n m : Z) :
  numberToString n = numberToString m -> n = m.
Proof.
  unfold numberToString. intros H.
  apply DecimalZ.to_int_inj.
  pose proof (NilEmpty.isi (Z.to_int n)) as Hn.
  pose proof (NilEmpty.isi (Z.to_int m)) as Hm.
  rewrite H in Hn. congruence.
Qed.

Lemma length_append (x y : string) :
  String.length (x ++ y) = String.length x + String.length y.
Proof. induction x as [|a x IH]; simpl; [reflexivity|now rewrite IH]. Qed.

Lemma append_inj_l (x y z : string) : (x ++ y)%string = (x ++ z)%string -> y = z.
Proof. induction x as [|a x IH]; simpl; intros H; [assumption|]. injection H. exact IH. Qed.

Lemma append_inj_r (x y z : string) : (y ++ x)%string = (z ++ x)%string -> y = z.
Proof.
  revert z. induction y as [|a y IH]; intros [|b z] H.
  - reflexivity.
  - apply (f_equal String.length) in H. simpl in H. rewrite length_append in H. lia.
  - apply (f_equal String.length) in H. simpl in H. rewrite length_append in H. lia.
  - simpl in H. injection H as -> H. f_equal. now apply IH.
Qed.

Lemma bakedName_inj (n m : Z) : bakedName n = bakedName m -> n = m.
Proof.
  unfold bakedName. intros H.
  apply append_inj_l, append_inj_r in H. now apply numberToString_inj.
Qed.

Lemma bakedName_plain (n : Z) :
  bakedName n <> EmptyString /\ Spec.occurs "/" (bakedName n) = false
  /\ bakedName n <> "." /\ bakedName n <> "..".
Proof.
  unfold bakedName. repeat split; try discriminate.
  rewrite !occurs_app, numberToString_no_slash. reflexivity.
Qed.

Lemma join_bakedName (dir : string) (n : Z) :
  dir <> EmptyString -> Path.join dir (bakedName n) = (Path.under dir ++ bakedName n)%string.
Proof.
  intros Hdir. destruct (bakedName_plain n) as (H0 & H1 & H2 & H3).
  now apply path_join_under.
Qed.

(** ** The template path provider *)

Lemma getTemplatePath_present (h : Host) (s : State) (dir : string) :
  host_RUNNER_TEMP h = Some dir -> dir <> EmptyString ->
  RenderEngine.getTemplatePath h s
  = (Returned (Path.under dir ++ bakedName (host_clock h (clockReads s)))%string,
     {| clockReads := S (clockReads s); trace := trace s |}).
Proof.
  intros Htemp Hdir. unfold RenderEngine.getTemplatePath. rewrite Htemp.
  destruct dir as [|d dir]; [congruence|].
  cbn [truthy option_ToBoolean string_ToBoolean].
  unfold bind, utilities.getCurrentTime, ret.
  fold (bakedName (host_clock h (clockReads s))).
  now rewrite join_bakedName.
Qed.

(** C6.  [getTemplatePath] reads [RUNNER_TEMP].  When it names a
    directory, the call returns the path of [baked-template-<timestamp>.yaml]
    joined to it, the timestamp being the clock's reading; for a directory
    in normal form this is literally [<dir>/baked-template-<timestamp>.yaml].
    When the variable is absent (or empty, which the code does not tell
    apart), the call throws instead, without consulting the clock. *)
Theorem template_path_or_error (h : Host) (s : State) :
  match host_RUNNER_TEMP h with
  | None | Some EmptyString =>
      RenderEngine.getTemplatePath h s
      = (Thrown (Error "Unable to create temp directory."), s)
  | Some dir =>
      let now := host_clock h (clockReads s) in
      RenderEngine.getTemplatePath h s
      = (Returned (Path.under dir ++ bakedName now)%string,
         {| clockReads := S (clockReads s); trace := trace s |})
      /\ (Path.normalize dir = dir -> Path.endsWithSlash dir = false -> dir <> "." ->
          (Path.under dir ++ bakedName now)%string
          = (dir ++ "/baked-template-" ++ numberToString now ++ ".yaml")%string)
  end.
Proof.
  destruct (host_RUNNER_TEMP h) as [[|d dir]|] eqn:Htemp;
    try (unfold RenderEngine.getTemplatePath; rewrite Htemp; reflexivity).
  intros now. split.
  - apply getTemplatePath_present; [assumption|discriminate].
  - intros Hnorm Htrail Hdot.
    rewrite (under_normal_dir _ Hnorm Htrail Hdot).
    unfold bakedName. now rewrite append_assoc_string.
Qed.

(** On a runner whose scratch directory is [/home/runner/work/_temp]. *)
Lemma template_path_example :
  RenderEngine.getTemplatePath
    (runner [] (fun _ => EmptyString) (Returned JNull)) initial
  = (Returned "/home/runner/work/_temp/baked-template-1700000000000.yaml",
     {| clockReads := 1; trace := [] |}).
Proof.
  exact (proj1 (template_path_or_error
                  (runner [] (fun _ => EmptyString) (Returned JNull)) initial)).
Defined.

(** C7, as amended.  Any two calls of [getTemplatePath] on a host with a
    scratch directory return paths under that directory, and the two
    paths are equal exactly when the clock gave the two calls the same
    reading: distinct readings give distinct paths, one tick gives one
    path. *)
Theorem template_paths_distinct_iff (h : Host) (s1 s2 : State) (dir : string) :
  host_RUNNER_TEMP h = Some dir -> dir <> EmptyString ->
  let t1 := host_clock h (clockReads s1) in
  let t2 := host_clock h (clockReads s2) in
  fst (RenderEngine.getTemplatePath h s1)
    = Returned (Path.under dir ++ bakedName t1)%string
  /\ fst (RenderEngine.getTemplatePath h s2)
     = Returned (Path.under dir ++ bakedName t2)%string
  /\ ((Path.under dir ++ bakedName t1)%string = (Path.under dir ++ bakedName t2)%string
      <-> t1 = t2).
Proof.
  intros Htemp Hdir t1 t2.
  rewrite !(getTemplatePath_present h _ dir Htemp Hdir).
  repeat split.
  - intros H. now apply append_inj_l, bakedName_inj in H.
  - now intros ->.
Qed.

(** Two calls in a row on a runner whose clock advances between them. *)
Lemma template_paths_distinct_example :
  let h := runner [] (fun _ => EmptyString) (Returned JNull) in
  let first := RenderEngine.getTemplatePath h initial in
  let second := RenderEngine.getTemplatePath h (snd first) in
  fst first = Returned "/home/runner/work/_temp/baked-template-1700000000000.yaml"
  /\ fst second = Returned "/home/runner/work/_temp/baked-template-1700000000001.yaml".
Proof.
  pose (use := template_paths_distinct_iff
                 (runner [] (fun _ => EmptyString) (Returned JNull))
                 initial
                 (snd (RenderEngine.getTemplatePath
                         (runner [] (fun _ => EmptyString) (Returned JNull)) initial))
                 "/home/runner/work/_temp" eq_refl ltac:(discriminate)).
  exact (conj (proj1 use) (proj1 (proj2 use))).
Defined.

(** C7, as stated, fails: two calls in a row within one tick of the clock
    return the same path. *)
Lemma template_paths_same_tick :
  let h := stoppedClock (runner [] (fun _ => EmptyString) (Returned JNull))
                        1700000000000 in
  let first := RenderEngine.getTemplatePath h initial in
  let second := RenderEngine.getTemplatePath h (snd first) in
  fst first = Returned "/home/runner/work/_temp/baked-template-1700000000000.yaml"
  /\ fst second = fst first.
Proof. split; reflexivity. Qed.

(** ** Kompose and Kustomize: the existence check *)

(** The guard [!ioUtil.exists(path)] negates a promise, so it is never
    taken, whatever is on disk. *)
Lemma existence_guard_never_taken (h : Host) (fsPath : string) :
  negb (truthy (ioUtil.exists_ h fsPath)) = false.
Proof. reflexivity. Qed.

(** What [bake()] does is therefore the same on every disk. *)
Lemma bake_ignores_disk (h : Host) (disk : string -> bool)
      (renderEngine : EngineKind) (s : State) :
  bake (withDisk h disk) renderEngine s = bake h renderEngine s.
Proof. destruct renderEngine; reflexivity. Qed.

(** C4, at its failing inputs.  With the compose file absent from disk,
    the Kompose [bake()] throws nothing: it spawns [kompose convert] on
    the absent file and reports an output.  With the kustomization path
    absent from disk, the Kustomize [bake()] likewise spawns
    [kubectl kustomize] on it (after [kubectl version]), writes the
    captured text and reports an output. *)
Theorem missing_input_path_not_caught :
  host_exists komposeRunner "missing/docker-compose.yml" = false
  /\ run komposeRunner initial
     = (Returned tt,
        {| clockReads := 1;
           trace :=
             [EConsoleLog "in run"; ECoreDebug "in run";
              ECoreDebug "Running kompose command..";
              EExec "/usr/bin/kompose"
                    ["convert"; "-f"; "missing/docker-compose.yml"; "-o";
                     "/home/runner/work/_temp/baked-template-1700000000000.yaml"]
                    None;
              ESetOutput "manifestsBundle"
                         "/home/runner/work/_temp/baked-template-1700000000000.yaml"] |})
  /\ host_exists kustomizeRunner "missing/overlay" = false
  /\ run kustomizeRunner initial
     = (Returned tt,
        {| clockReads := 1;
           trace :=
             [EConsoleLog "in run"; ECoreDebug "in run";
              EExec "/usr/bin/kubectl" versionArgs None;
              ECoreDebug "Running kubectl kustomize command..";
              EConsoleLog "[command] /usr/bin/kubectl kustomize missing/overlay";
              EExec "/usr/bin/kubectl" ["kustomize"; "missing/overlay"]
                    (Some {| silent := true |});
              EWriteFile "/home/runner/work/_temp/baked-template-1700000000000.yaml"
                         "kind: Deployment";
              ESetOutput "manifestsBundle"
                         "/home/runner/work/_temp/baked-template-1700000000000.yaml"] |}).
Proof. repeat split; vm_compute; reflexivity. Qed.

(** Nor does [bake()] depend on how [stat] fails: the promise that
    carries the failure is never awaited. *)
Lemma bake_ignores_stat_error (h : Host) (err : JsError)
      (renderEngine : EngineKind) (s : State) :
  bake (withStatError h err) renderEngine s = bake h renderEngine s.
Proof. destruct renderEngine; reflexivity. Qed.

(** C8, at its failing inputs.  The compose file lies in a directory the
    runner may not look into, so the promise of [ioUtil.exists] rejects
    with the error of [stat]: awaiting it would throw that error inside
    [bake()].  [bake()] never awaits it, so the error reaches neither the
    [catch] of [run] nor [core.setFailed]: the action returns, having
    spawned [kompose convert] and reported [manifestsBundle], and no
    failure is recorded.  The same holds of the Kustomize engine with an
    overlay in such a directory.  When Kompose fails on that file in its
    turn, the failure reported is that of Kompose, not that of [stat].
    On every host, whatever the action does is what it does when [stat]
    fails with no error at all. *)
Theorem stat_error_never_reaches_catch :
  (forall (h : Host) (err : JsError) (s : State),
      main (withStatError h err) s = main h s)
  /\ await (ioUtil.exists_ lockedComposeRunner "locked/docker-compose.yml") initial
  = (Thrown (permissionDenied "locked/docker-compose.yml"), initial)
  /\ main lockedComposeRunner initial
     = (Returned tt,
        {| clockReads := 1;
           trace :=
             [EConsoleLog "in run"; ECoreDebug "in run";
              ECoreDebug "Running kompose command..";
              EExec "/usr/bin/kompose"
                    ["convert"; "-f"; "locked/docker-compose.yml"; "-o";
                     "/home/runner/work/_temp/baked-template-1700000000000.yaml"]
                    None;
              ESetOutput "manifestsBundle"
                         "/home/runner/work/_temp/baked-template-1700000000000.yaml"] |})
  /\ failures (trace (snd (main lockedComposeRunner initial))) = []
  /\ await (ioUtil.exists_ lockedOverlayRunner "locked/overlay") initial
     = (Thrown (permissionDenied "locked/overlay"), initial)
  /\ main lockedOverlayRunner initial
     = (Returned tt,
        {| clockReads := 1;
           trace :=
             [EConsoleLog "in run"; ECoreDebug "in run";
              EExec "/usr/bin/kubectl" versionArgs None;
              ECoreDebug "Running kubectl kustomize command..";
              EConsoleLog "[command] /usr/bin/kubectl kustomize locked/overlay";
              EExec "/usr/bin/kubectl" ["kustomize"; "locked/overlay"]
                    (Some {| silent := true |});
              EWriteFile "/home/runner/work/_temp/baked-template-1700000000000.yaml"
                         "kind: Deployment";
              ESetOutput "manifestsBundle"
                         "/home/runner/work/_temp/baked-template-1700000000000.yaml"] |})
  /\ failures (trace (snd (main lockedOverlayRunner initial))) = []
  /\ failures (trace (snd (main lockedFailingRunner initial)))
     = ["Error: Failed to run bake action. Error: Error: The process '/usr/bin/kompose' failed with exit code 1"].
Proof.
  split; [intros h err s; reflexivity|].
  repeat split; vm_compute; reflexivity.
Qed.

(** ** [run] and the reported failure *)

(** The tag that selects an engine. *)
Lemma run_dispatches (h : Host) (s : State) (renderEngine : EngineKind) :
  selectEngine (host_input h "renderEngine") s = (Returned renderEngine, s) ->
  run h s
  = runBake h renderEngine
            {| clockReads := clockReads s;
               trace := (trace s ++ [EConsoleLog "in run"]) ++ [ECoreDebug "in run"] |}.
Proof.
  intros Hsel.
  assert (Hsupplied : host_input h "renderEngine" <> EmptyString).
  { intros E. rewrite E in Hsel. discriminate Hsel. }
  unfold run. rewrite (getInput_supplied h "renderEngine" Hsupplied).
  unfold bind at 1, ret at 1.
  unfold bind at 1, console.log at 1, emit at 1.
  unfold bind at 1, core.debug at 1, emit at 1. cbn [clockReads trace].
  unfold bind at 1.
  unfold selectEngine in *.
  repeat match goal with
         | H : context [if ?b then _ else _] |- _ => destruct b
         end;
    now inversion Hsel.
Qed.

(** Whatever [run] throws is reported once, through [core.setFailed], as
    the error's text. *)
Lemma main_reports_failure (h : Host) (s s' : State) (err : JsError) :
  run h s = (Thrown err, s') ->
  main h s = (Returned tt,
              {| clockReads := clockReads s';
                 trace := trace s' ++ [ESetFailed (errorToString err)] |}).
Proof. intros Hrun. unfold main, tryCatch. now rewrite Hrun. Qed.

(* ================================================================== *)
(** * Further properties of the code *)
(* ================================================================== *)

(** ** Helm: what the override pairs keep of their tokens *)

Lemma beforeFirst_no_sep (c : ascii) (t : string) :
  Spec.occurs c (Spec.beforeFirst c t) = false.
Proof.
  induction t as [|a t IH]; [reflexivity|]. simpl.
  destruct (Ascii.eqb a c) eqn:Hac; [reflexivity|].
  simpl. now rewrite Hac, IH.
Qed.

Lemma first_sep_rebuilds (c : ascii) (t : string) :
  Spec.occurs c t = true ->
  t = (Spec.beforeFirst c t ++ String c (Spec.afterFirst c t))%string.
Proof.
  induction t as [|a t IH]; [discriminate|]. simpl.
  destruct (Ascii.eqb a c) eqn:Hac.
  - intros _. apply Ascii.eqb_eq in Hac. now subst a.
  - simpl. intros H. now rewrite <- IH.
Qed.

Lemma no_sep_whole (c : ascii) (t : string) :
  Spec.occurs c t = false ->
  Spec.beforeFirst c t = t /\ Spec.afterFirst c t = EmptyString.
Proof.
  induction t as [|a t IH]; [now split|]. simpl.
  intros H. apply orb_false_iff in H. destruct H as [Hac H].
  rewrite Hac. destruct (IH H) as [-> ->]. now split.
Qed.

(** X1.  [getOverrideValues] yields one pair per token, in order, and
    loses nothing: a token with a colon is its pair's name, a colon and
    its pair's value, the name holding no colon; a token without a colon
    is its pair's name, with the empty value. *)
Theorem override_pairs_rebuild_tokens (overrides : list string) :
  Forall2 (fun token pair =>
             if Spec.occurs ":" token
             then token = (name pair ++ ":" ++ value pair)%string
                  /\ Spec.occurs ":" (name pair) = false
             else name pair = token /\ value pair = EmptyString)
          overrides (HelmRenderEngine.getOverrideValues overrides).
Proof.
  rewrite getOverrideValues_map.
  induction overrides as [|token overrides IH]; simpl; constructor; [|exact IH].
  cbn [name value].
  destruct (Spec.occurs ":" token) eqn:Hocc.
  - split; [now apply first_sep_rebuilds|apply beforeFirst_no_sep].
  - now apply no_sep_whole.
Qed.

(** ** Helm: blank lines and the missing chart *)

Lemma entries_blank_line (x y : string) :
  Spec.entries (x ++ String LF (String LF y))
  = Js.split LF x ++ EmptyString :: Js.split LF y.
Proof.
  assert (Hne : (x ++ String LF (String LF y))%string <> EmptyString)
    by (destruct x; discriminate).
  unfold Spec.entries.
  destruct (x ++ String LF (String LF y))%string as [|c rest] eqn:E; [congruence|].
  rewrite <- E, split_app_sep. reflexivity.
Qed.

(** X2.  A blank line in the override-files input is not skipped: with
    the chart supplied, the argument list holds, between the [-f] pairs
    of the lines before it and those of the lines after it, a [-f]
    followed by an empty file name. *)
Theorem blank_override_file_line_kept (h : Host) (s : State) (x y : string) :
  host_input h "helmChart" <> EmptyString ->
  host_input h "overrideFiles" = (x ++ String LF (String LF y))%string ->
  exists before after,
    fst (HelmRenderEngine.getTemplateArgs h s)
    = Returned (before
                  ++ flat_map (fun file => ["-f"; file]) (Js.split LF x)
                  ++ "-f" :: EmptyString
                  :: flat_map (fun file => ["-f"; file]) (Js.split LF y)
                  ++ after).
Proof.
  intros Hchart Hfiles.
  rewrite (getTemplateArgs_returns h s Hchart). cbn [fst].
  unfold Spec.helmArgs. rewrite Hfiles, entries_blank_line, flat_map_app.
  cbn [flat_map].
  exists (["template"; host_input h "helmChart"]
            ++ match host_input h "releaseName" with
               | EmptyString => []
               | _ => ["--name"; host_input h "releaseName"]
               end).
  exists (flat_map
            (fun token =>
               ["--set";
                (Spec.beforeFirst ":" token ++ "=" ++ Spec.afterFirst ":" token)%string])
            (Spec.entries (host_input h "overrides"))).
  rewrite <- !app_assoc. reflexivity.
Qed.

(** Two override files with a blank line between them. *)
Lemma blank_override_file_line_example :
  exists before after,
    fst (HelmRenderEngine.getTemplateArgs
           (runner blankLineInputs (fun _ => EmptyString) (Returned JNull)) initial)
    = Returned (before ++ ["-f"; "values.yaml"; "-f"; ""; "-f"; "prod.yaml"] ++ after).
Proof.
  exact (blank_override_file_line_kept
           (runner blankLineInputs (fun _ => EmptyString) (Returned JNull)) initial
           "values.yaml" "prod.yaml" ltac:(discriminate) eq_refl).
Defined.

Lemma getTemplateArgs_missing_chart (h : Host) (s : State) :
  host_env_input h "helmChart" = EmptyString ->
  HelmRenderEngine.getTemplateArgs h s
  = (Thrown (Error "Input required and not supplied: helmChart"), s).
Proof.
  intros Hchart.
  unfold HelmRenderEngine.getTemplateArgs.
  rewrite getInput_optional, (getInput_missing h "helmChart" Hchart).
  reflexivity.
Qed.

(** X7.  [getTemplateArgs] requires the chart as the runner hands it
    over, before trimming.  With an empty [helmChart] it throws
    [Input required and not supplied: helmChart], having written nothing;
    with any other, white space only included, it returns the argument
    list built on the trimmed inputs, having written one debug line per
    optional block entered. *)
Theorem chart_required_before_trimming (h : Host) (s : State) :
  HelmRenderEngine.getTemplateArgs h s
  = if truthy (host_env_input h "helmChart")
    then (Returned (helmArgsOf h),
          {| clockReads := clockReads s; trace := trace s ++ helmArgLines h |})
    else (Thrown (Error "Input required and not supplied: helmChart"), s).
Proof.
  destruct (host_env_input h "helmChart") as [|c chart] eqn:Hchart;
    cbn [truthy string_ToBoolean].
  - now apply getTemplateArgs_missing_chart.
  - apply getTemplateArgs_raw. rewrite Hchart. discriminate.
Qed.

(** A chart of two blanks passes for supplied, and Helm would be handed
    an empty chart path. *)
Lemma chart_required_before_trimming_example :
  fst (HelmRenderEngine.getTemplateArgs
         (runner blankChartInputs (fun _ => EmptyString) (Returned JNull)) initial)
  = Returned ["template"; ""; "--name"; "web"].
Proof.
  exact (f_equal fst
           (chart_required_before_trimming
              (runner blankChartInputs (fun _ => EmptyString) (Returned JNull))
              initial)).
Defined.

(** Closes a branch of a case analysis in which one side of an
    equivalence is a thrown outcome and the other contradicts the case. *)
Ltac impossible_branch :=
  split;
  [ let H := fresh in intros H; discriminate H
  | let H := fresh in
    intros H;
    repeat match goal with
           | H' : exists _, _ |- _ => destruct H'
           | H' : _ /\ _ |- _ => destruct H'
           end;
    congruence ].

(** Flattens the appends of a trace. *)
Ltac flatten_trace := rewrite <- ?app_assoc; cbn [app].

(** ** Helm: [bake()] stops at its first line *)

Lemma helm_bake_throws (h : Host) (s : State) :
  HelmRenderEngine.bake h s = (Thrown coreLogMissing, s).
Proof. reflexivity. Qed.

(** X3.  [@actions/core] has no member [log], so the first line of the
    Helm [bake()] throws a [TypeError] on every host: nothing is resolved,
    read, spawned or written.  A run that selects [helm2] therefore always
    fails, and reports that error, wrapped, after the two log lines of
    [run]. *)
Theorem helm2_run_always_fails (h : Host) (s : State) :
  host_input h "renderEngine" = "helm2" ->
  HelmRenderEngine.bake h s = (Thrown coreLogMissing, s)
  /\ main h s
     = (Returned tt,
        failed (afterRunLogs s)
               ("Error: Failed to run bake action. Error: TypeError: core.log is not a function"
                  ++ host_stackFrames h coreLogMissing)).
Proof.
  intros Hengine. split; [reflexivity|].
  rewrite (main_reports_failure h s (afterRunLogs s) (wrappedFailure h coreLogMissing)).
  - reflexivity.
  - rewrite (run_dispatches h s Helm) by (now rewrite Hengine).
    now apply runBake_thrown.
Qed.

(** A Helm run on the chart, release, override files and overrides of
    [helmInputs], on a Node that prints stack frames. *)
Lemma helm2_run_always_fails_example :
  HelmRenderEngine.bake (withFrames helmRunner sampleFrames) initial
  = (Thrown coreLogMissing, initial)
  /\ main (withFrames helmRunner sampleFrames) initial
     = (Returned tt,
        {| clockReads := 0;
           trace :=
             [EConsoleLog "in run"; ECoreDebug "in run";
              ESetFailed
                ("Error: Failed to run bake action. Error: TypeError: core.log is not a function"
                   ++ sampleFrames)] |}).
Proof.
  exact (helm2_run_always_fails (withFrames helmRunner sampleFrames) initial eq_refl).
Defined.

(** ** Kompose: when [bake()] returns *)

Lemma kompose_bake_returns_spec (h : Host) (s s' : State) :
  KomposeRenderEngine.bake h s = (Returned tt, s')
  <-> exists komposePath result dir,
        host_env_input h "dockerComposeFile" <> EmptyString
        /\ host_komposePath h = Returned komposePath
        /\ host_RUNNER_TEMP h = Some dir /\ dir <> EmptyString
        /\ host_exec h komposePath
             ["convert"; "-f"; host_input h "dockerComposeFile";
              "-o"; bakedPath h s dir] None
           = Returned result
        /\ s' = {| clockReads := S (clockReads s);
                   trace := trace s
                              ++ komposeBakeTrace komposePath
                                   (host_input h "dockerComposeFile")
                                   (bakedPath h s dir) |}.
Proof.
  unfold KomposeRenderEngine.bake, getKomposePath.
  destruct (String.string_dec (host_env_input h "dockerComposeFile") EmptyString)
    as [Hfile|Hfile].
  { rewrite (getInput_missing h "dockerComposeFile" Hfile).
    unfold bind, throw. impossible_branch. }
  rewrite (getInput_raw h "dockerComposeFile" Hfile).
  set (composeFile := host_input h "dockerComposeFile").
  cbn [negb truthy Promise_ToBoolean].
  unfold RenderEngine.getTemplatePath, awaiting, utilities.execCommand,
    utilities.getCurrentTime, core.setOutput, core.debug,
    bind, emit, ret, throw, await.
  destruct (host_komposePath h) as [komposePath|e1] eqn:Hkompose; [|impossible_branch].
  destruct (host_RUNNER_TEMP h) as [[|d dir]|] eqn:Htemp; try impossible_branch.
  cbn [truthy option_ToBoolean string_ToBoolean clockReads trace].
  fold (bakedName (host_clock h (clockReads s))).
  fold (bakedPath h s (String d dir)).
  destruct (host_exec h komposePath
              ["convert"; "-f"; composeFile; "-o"; bakedPath h s (String d dir)] None)
    as [result|e2] eqn:Hexec; [|impossible_branch].
  split.
  - intros H. injection H as <-.
    exists komposePath, result, (String d dir).
    repeat (split; [first [reflexivity|assumption|discriminate]|]).
    unfold komposeBakeTrace. flatten_trace. reflexivity.
  - intros (komposePath' & result' & dir' & _ & Hp & Hd & _ & _ & ->).
    injection Hp as <-. injection Hd as <-.
    unfold komposeBakeTrace. flatten_trace. reflexivity.
Qed.

(** X4.  The Kompose [bake()] returns exactly when the compose file input
    is not empty as the runner hands it over, the Kompose executable is
    resolved, the scratch directory is set and Kompose itself succeeds,
    whatever [stat] finds at the path; it has then spawned
    [kompose convert -f <file> -o <baked path>] once, on the trimmed
    input, and reported that same baked path as [manifestsBundle], without
    writing any file itself. *)
Theorem kompose_bake_returns_iff (h : Host) (s s' : State) :
  KomposeRenderEngine.bake h s = (Returned tt, s')
  <-> exists komposePath result dir,
        host_env_input h "dockerComposeFile" <> EmptyString
        /\ host_komposePath h = Returned komposePath
        /\ host_RUNNER_TEMP h = Some dir /\ dir <> EmptyString
        /\ host_exec h komposePath
             ["convert"; "-f"; host_input h "dockerComposeFile";
              "-o"; bakedPath h s dir] None
           = Returned result
        /\ s' = {| clockReads := S (clockReads s);
                   trace := trace s
                              ++ komposeBakeTrace komposePath
                                   (host_input h "dockerComposeFile")
                                   (bakedPath h s dir) |}.
Proof. exact (kompose_bake_returns_spec h s s'). Qed.

(** A Kompose run on a compose file input of one blank: the input passes
    for supplied and Kompose is handed an empty file name. *)
Lemma kompose_bake_returns_example :
  KomposeRenderEngine.bake blankComposeRunner initial
  = (Returned tt,
     {| clockReads := 1;
        trace :=
          [ECoreDebug "Running kompose command..";
           EExec "/usr/bin/kompose"
                 ["convert"; "-f"; ""; "-o";
                  "/home/runner/work/_temp/baked-template-1700000000000.yaml"]
                 None;
           ESetOutput "manifestsBundle"
                      "/home/runner/work/_temp/baked-template-1700000000000.yaml"] |}).
Proof.
  apply (proj2 (kompose_bake_returns_iff blankComposeRunner initial _)).
  exists "/usr/bin/kompose", {| stdout := ""; stderr := "" |},
    "/home/runner/work/_temp".
  repeat split; try reflexivity; discriminate.
Defined.

(** ** Kustomize: what the version check touches *)

(** However the version check ends, all it has done is spawn the version
    query. *)
Lemma validateKustomize_state (h : Host) (kubectlPath : string) (s : State) :
  snd (KustomizeRenderEngine.validateKustomize h kubectlPath s)
  = spawned s kubectlPath versionArgs None.
Proof.
  unfold KustomizeRenderEngine.validateKustomize, awaiting, utilities.execCommand,
    bind, emit, ret, await, JSON.parse, KustomizeRenderEngine.clientVersionOf,
    evaluate.
  fold versionArgs.
  destruct (host_exec h kubectlPath versionArgs None) as [out|e]; [|reflexivity].
  destruct (truthy (stdout out)); [|reflexivity].
  destruct (host_JSON_parse h (stdout out)) as [parsed|e]; [|reflexivity].
  destruct parsed; unfold ret, throw; cbn [fst snd];
    try (destruct (KustomizeRenderEngine.versionAccepted _) as [[]|]); reflexivity.
Qed.

(** ** Kustomize: when [bake()] returns, and when the check stops it *)

Lemma validateKustomize_outcome (h : Host) (kubectlPath : string) (s : State) :
  KustomizeRenderEngine.validateKustomize h kubectlPath s
  = (fst (KustomizeRenderEngine.validateKustomize h kubectlPath s),
     spawned s kubectlPath versionArgs None).
Proof.
  rewrite <- (validateKustomize_state h kubectlPath s).
  now destruct (KustomizeRenderEngine.validateKustomize h kubectlPath s).
Qed.

Lemma kustomize_bake_returns_spec (h : Host) (s s' : State) :
  KustomizeRenderEngine.bake h s = (Returned tt, s')
  <-> exists kubectlPath result dir,
        host_kubectlPath h = Returned kubectlPath
        /\ fst (KustomizeRenderEngine.validateKustomize h kubectlPath s) = Returned tt
        /\ host_env_input h "kustomizationPath" <> EmptyString
        /\ host_exec h kubectlPath ["kustomize"; host_input h "kustomizationPath"]
             (Some {| silent := true |})
           = Returned result
        /\ host_RUNNER_TEMP h = Some dir /\ dir <> EmptyString
        /\ host_writeFile h (bakedPath h s dir) (stdout result) = Returned tt
        /\ s' = {| clockReads := S (clockReads s);
                   trace := trace s
                              ++ kustomizeBakeTrace kubectlPath
                                   (host_input h "kustomizationPath") result
                                   (bakedPath h s dir) |}.
Proof.
  unfold KustomizeRenderEngine.bake, getKubectlPath.
  unfold bind at 1, await at 1.
  destruct (host_kubectlPath h) as [kubectlPath|e0] eqn:Hkubectl; [|impossible_branch].
  unfold bind at 1. rewrite validateKustomize_outcome.
  destruct (fst (KustomizeRenderEngine.validateKustomize h kubectlPath s))
    as [[]|e1] eqn:Hcheck.
  2:{ split; [intros H; discriminate H|].
      intros (k' & r' & d' & Hk & Hc & _). injection Hk as <-. congruence. }
  destruct (String.string_dec (host_env_input h "kustomizationPath") EmptyString)
    as [Hinput|Hinput].
  { rewrite (getInput_missing h "kustomizationPath" Hinput).
    unfold bind, throw. impossible_branch. }
  rewrite (getInput_raw h "kustomizationPath" Hinput), getInput_optional.
  set (kustomizationPath := host_input h "kustomizationPath").
  cbn [negb truthy Promise_ToBoolean].
  unfold RenderEngine.getTemplatePath, awaiting, utilities.execCommand,
    utilities.getCurrentTime, fs.writeFileSync, core.setOutput, core.debug,
    console.log, bind, emit, ret, throw, await, spawned.
  cbn [clockReads trace].
  destruct (host_exec h kubectlPath ["kustomize"; kustomizationPath]
              (Some {| silent := true |})) as [result|e2] eqn:Hexec;
    [|impossible_branch].
  destruct (host_RUNNER_TEMP h) as [[|d dir]|] eqn:Htemp; try impossible_branch.
  cbn [truthy option_ToBoolean string_ToBoolean clockReads trace].
  fold (bakedName (host_clock h (clockReads s))).
  fold (bakedPath h s (String d dir)).
  destruct (host_writeFile h (bakedPath h s (String d dir)) (stdout result))
    as [[]|e3] eqn:Hwrite; [|impossible_branch].
  split.
  - intros H. injection H as <-.
    exists kubectlPath, result, (String d dir).
    repeat (split; [first [reflexivity|assumption|discriminate]|]).
    unfold kustomizeBakeTrace. flatten_trace. reflexivity.
  - intros (k' & result' & dir' & Hk & _ & _ & Hx & Hd & _ & _ & ->).
    injection Hk as <-. rewrite Hexec in Hx. injection Hx as <-. injection Hd as <-.
    unfold kustomizeBakeTrace. flatten_trace. reflexivity.
Qed.

(** X5.  The Kustomize [bake()] returns exactly when kubectl is resolved,
    the version check returns, the kustomization path input is not empty
    as the runner hands it over, [kubectl kustomize] succeeds, the scratch
    directory is set and the write succeeds, whatever [stat] finds at the
    path; it has then spawned kubectl twice (the version query, then
    [kustomize <path>] silently, on the trimmed input), written the second
    stdout verbatim to the baked path and reported that same path as
    [manifestsBundle]. *)
Theorem kustomize_bake_returns_iff (h : Host) (s s' : State) :
  KustomizeRenderEngine.bake h s = (Returned tt, s')
  <-> exists kubectlPath result dir,
        host_kubectlPath h = Returned kubectlPath
        /\ fst (KustomizeRenderEngine.validateKustomize h kubectlPath s) = Returned tt
        /\ host_env_input h "kustomizationPath" <> EmptyString
        /\ host_exec h kubectlPath ["kustomize"; host_input h "kustomizationPath"]
             (Some {| silent := true |})
           = Returned result
        /\ host_RUNNER_TEMP h = Some dir /\ dir <> EmptyString
        /\ host_writeFile h (bakedPath h s dir) (stdout result) = Returned tt
        /\ s' = {| clockReads := S (clockReads s);
                   trace := trace s
                              ++ kustomizeBakeTrace kubectlPath
                                   (host_input h "kustomizationPath") result
                                   (bakedPath h s dir) |}.
Proof. exact (kustomize_bake_returns_spec h s s'). Qed.

(** A Kustomize run with kubectl 1.20 on an overlay input of one blank:
    the input passes for supplied and kubectl is handed an empty path. *)
Lemma kustomize_bake_returns_example :
  KustomizeRenderEngine.bake blankOverlayRunner initial
  = (Returned tt,
     {| clockReads := 1;
        trace :=
          [EExec "/usr/bin/kubectl" versionArgs None;
           ECoreDebug "Running kubectl kustomize command..";
           EConsoleLog "[command] /usr/bin/kubectl kustomize ";
           EExec "/usr/bin/kubectl" ["kustomize"; ""]
                 (Some {| silent := true |});
           EWriteFile "/home/runner/work/_temp/baked-template-1700000000000.yaml"
                      "kind: Deployment";
           ESetOutput "manifestsBundle"
                      "/home/runner/work/_temp/baked-template-1700000000000.yaml"] |}).
Proof.
  apply (proj2 (kustomize_bake_returns_iff blankOverlayRunner initial _)).
  exists "/usr/bin/kubectl", {| stdout := "kind: Deployment"; stderr := "" |},
    "/home/runner/work/_temp".
  repeat split; try reflexivity; discriminate.
Defined.

(** X6.  When the version check throws, the Kustomize [bake()] throws the
    same error at once: the kustomization input has not been read, the
    clock has not been consulted, and the version query is the only
    thing that has happened. *)
Theorem kustomize_check_failure_stops_bake
        (h : Host) (kubectlPath : string) (s : State) (err : JsError) :
  host_kubectlPath h = Returned kubectlPath ->
  fst (KustomizeRenderEngine.validateKustomize h kubectlPath s) = Thrown err ->
  KustomizeRenderEngine.bake h s
  = (Thrown err, spawned s kubectlPath versionArgs None).
Proof.
  intros Hkubectl Hcheck.
  unfold KustomizeRenderEngine.bake, getKubectlPath.
  unfold bind at 1, await at 1. rewrite Hkubectl.
  unfold bind at 1. now rewrite validateKustomize_outcome, Hcheck.
Qed.

(** kubectl 1.13: the run stops at the version check. *)
Lemma kustomize_check_failure_example :
  KustomizeRenderEngine.bake oldKubectlRunner initial
  = (Thrown unsupportedClientVersion,
     {| clockReads := 0; trace := [EExec "/usr/bin/kubectl" versionArgs None] |}).
Proof.
  exact (kustomize_check_failure_stops_bake
           oldKubectlRunner "/usr/bin/kubectl" initial unsupportedClientVersion
           eq_refl eq_refl).
Defined.

(** ** The scratch directory is looked up late *)

Lemma truthy_temp_false (temp : option string) :
  truthy temp = false -> temp = None \/ temp = Some EmptyString.
Proof. destruct temp as [[|c rest]|]; cbn; intros H; auto; discriminate. Qed.

(** X8.  The Kustomize [bake()] looks the scratch directory up only after
    [kubectl kustomize] has run: with no scratch directory (and everything
    before it succeeding) kubectl is still spawned on the overlay, and
    only then does the call throw, the rendered text being neither
    written nor reported. *)
Theorem kustomize_runs_before_scratch_lookup
        (h : Host) (s : State) (kubectlPath : string) (result : ExecResult) :
  host_kubectlPath h = Returned kubectlPath ->
  fst (KustomizeRenderEngine.validateKustomize h kubectlPath s) = Returned tt ->
  host_env_input h "kustomizationPath" <> EmptyString ->
  host_exec h kubectlPath ["kustomize"; host_input h "kustomizationPath"]
            (Some {| silent := true |}) = Returned result ->
  truthy (host_RUNNER_TEMP h) = false ->
  KustomizeRenderEngine.bake h s
  = (Thrown noScratchDirectory,
     {| clockReads := clockReads s;
        trace := trace s
                   ++ [EExec kubectlPath versionArgs None;
                       ECoreDebug "Running kubectl kustomize command..";
                       EConsoleLog ("[command] " ++ kubectlPath ++ " kustomize "
                                      ++ host_input h "kustomizationPath")%string;
                       EExec kubectlPath ["kustomize"; host_input h "kustomizationPath"]
                             (Some {| silent := true |})] |}).
Proof.
  intros Hkubectl Hcheck Hinput Hexec Htemp.
  unfold KustomizeRenderEngine.bake, getKubectlPath.
  unfold bind at 1, await at 1. rewrite Hkubectl.
  unfold bind at 1. rewrite validateKustomize_outcome, Hcheck.
  rewrite (getInput_raw h "kustomizationPath" Hinput), getInput_optional.
  cbn [negb truthy Promise_ToBoolean].
  unfold RenderEngine.getTemplatePath, awaiting, utilities.execCommand,
    core.debug, console.log, bind, emit, ret, throw, await, spawned.
  cbn [clockReads trace]. rewrite Hexec.
  destruct (truthy_temp_false _ Htemp) as [-> | ->];
    cbn [truthy option_ToBoolean string_ToBoolean clockReads trace];
    flatten_trace; reflexivity.
Qed.

(** A Kustomize run on a runner without [RUNNER_TEMP]. *)
Lemma kustomize_runs_before_scratch_lookup_example :
  KustomizeRenderEngine.bake (withTemp kustomizeRunner None) initial
  = (Thrown noScratchDirectory,
     {| clockReads := 0;
        trace :=
          [EExec "/usr/bin/kubectl" versionArgs None;
           ECoreDebug "Running kubectl kustomize command..";
           EConsoleLog "[command] /usr/bin/kubectl kustomize missing/overlay";
           EExec "/usr/bin/kubectl" ["kustomize"; "missing/overlay"]
                 (Some {| silent := true |})] |}).
Proof.
  exact (kustomize_runs_before_scratch_lookup
           (withTemp kustomizeRunner None) initial "/usr/bin/kubectl"
           {| stdout := "kind: Deployment"; stderr := "" |}
           eq_refl eq_refl ltac:(discriminate) eq_refl eq_refl).
Defined.

(** X9.  The Kompose [bake()] looks the scratch directory up before it
    spawns Kompose: with no scratch directory it throws with nothing
    done, whatever else the host holds; with the compose file input
    supplied and Kompose resolved, what it throws is the scratch-directory
    error. *)
Theorem kompose_stops_without_scratch_dir (h : Host) (s : State) :
  truthy (host_RUNNER_TEMP h) = false ->
  exists err,
    KomposeRenderEngine.bake h s = (Thrown err, s)
    /\ (host_input h "dockerComposeFile" <> EmptyString ->
        (exists komposePath, host_komposePath h = Returned komposePath) ->
        err = noScratchDirectory).
Proof.
  intros Htemp.
  unfold KomposeRenderEngine.bake, getKomposePath.
  destruct (String.string_dec (host_env_input h "dockerComposeFile") EmptyString)
    as [Hfile|Hfile].
  { rewrite (getInput_missing h "dockerComposeFile" Hfile).
    eexists. split; [reflexivity|].
    intros H. now elim (supplied_raw h "dockerComposeFile" H). }
  rewrite (getInput_raw h "dockerComposeFile" Hfile).
  cbn [negb truthy Promise_ToBoolean].
  unfold RenderEngine.getTemplatePath, bind, await, throw, ret.
  destruct (host_komposePath h) as [komposePath|e].
  - destruct (truthy_temp_false _ Htemp) as [-> | ->];
      eexists; split; reflexivity.
  - eexists. split; [reflexivity|]. intros _ [p Hp]. discriminate Hp.
Qed.

(** A Kompose run on a runner without [RUNNER_TEMP]. *)
Lemma kompose_stops_without_scratch_dir_example :
  KomposeRenderEngine.bake (withTemp komposeRunner None) initial
  = (Thrown noScratchDirectory, initial).
Proof.
  destruct (kompose_stops_without_scratch_dir (withTemp komposeRunner None) initial
              eq_refl) as (err & Hbake & Herr).
  rewrite <- (Herr ltac:(discriminate) (ex_intro _ "/usr/bin/kompose" eq_refl)).
  exact Hbake.
Defined.

(** ** No retries: what one [bake()] can use *)

Lemma writes_app (t1 t2 : list Event) :
  writes (t1 ++ t2) = writes t1 ++ writes t2.
Proof.
  induction t1 as [|ev t1 IH]; simpl; [reflexivity|].
  destruct ev; simpl; now rewrite IH.
Qed.

(** Counts the events of each kind in a trace built by appends. *)
Ltac count_trace :=
  cbn [snd trace clockReads];
  rewrite ?execs_app, ?writes_app, ?outputs_app, ?List.length_app;
  cbn [execs writes outputs length app];
  lia.

(** X10.  One [bake()] spawns at most one process (two for Kustomize: the
    version query and the render), writes at most one file (none for
    Kompose, which leaves the writing to the tool), reports at most one
    output and reads the clock at most once, on every host and whatever
    its outcome. *)
Theorem bake_uses_at_most (h : Host) (renderEngine : EngineKind) (s : State) :
  let s' := snd (bake h renderEngine s) in
  length (execs (trace s'))
    <= length (execs (trace s))
       + (match renderEngine with Kustomize => 2 | _ => 1 end)
  /\ length (writes (trace s'))
     <= length (writes (trace s))
        + (match renderEngine with Kompose => 0 | _ => 1 end)
  /\ length (outputs (trace s')) <= length (outputs (trace s)) + 1
  /\ clockReads s' <= clockReads s + 1.
Proof.
  intros s'.
  assert (E : exists r, bake h renderEngine s = r /\ s' = snd r)
    by (eexists; split; reflexivity).
  destruct E as (r & E & ->).
  destruct renderEngine; unfold bake in E.
  - rewrite helm_bake_throws in E. subst r; repeat split; count_trace.
  - unfold KomposeRenderEngine.bake, getKomposePath in E.
    destruct (String.string_dec (host_env_input h "dockerComposeFile") EmptyString)
      as [Hfile|Hfile].
    { rewrite (getInput_missing h "dockerComposeFile" Hfile) in E.
      unfold bind, throw in E. subst r; repeat split; count_trace. }
    rewrite (getInput_raw h "dockerComposeFile" Hfile) in E.
    cbn [negb truthy Promise_ToBoolean] in E.
    unfold RenderEngine.getTemplatePath, awaiting, utilities.execCommand,
      utilities.getCurrentTime, core.setOutput, core.debug,
      bind, emit, ret, throw, await in E.
    destruct (host_komposePath h) as [komposePath|e1];
      [|subst r; repeat split; count_trace].
    destruct (host_RUNNER_TEMP h) as [[|d dir]|];
      cbn [truthy option_ToBoolean string_ToBoolean clockReads trace] in E;
      try destruct (host_exec h komposePath _ None);
      subst r; repeat split; count_trace.
  - unfold KustomizeRenderEngine.bake, getKubectlPath in E.
    unfold bind at 1, await at 1 in E.
    destruct (host_kubectlPath h) as [kubectlPath|e0];
      [|subst r; repeat split; count_trace].
    unfold bind at 1 in E. rewrite validateKustomize_outcome in E.
    destruct (fst (KustomizeRenderEngine.validateKustomize h kubectlPath s))
      as [[]|e1]; [|unfold spawned in E; subst r; repeat split; count_trace].
    destruct (String.string_dec (host_env_input h "kustomizationPath") EmptyString)
      as [Hinput|Hinput].
    { rewrite (getInput_missing h "kustomizationPath" Hinput) in E.
      unfold bind, throw, spawned in E. subst r; repeat split; count_trace. }
    rewrite (getInput_raw h "kustomizationPath" Hinput), getInput_optional in E.
    cbn [negb truthy Promise_ToBoolean] in E.
    unfold RenderEngine.getTemplatePath, awaiting, utilities.execCommand,
      utilities.getCurrentTime, fs.writeFileSync, core.setOutput, core.debug,
      console.log, bind, emit, ret, throw, await, spawned in E.
    cbn [clockReads trace] in E.
    destruct (host_exec h kubectlPath _ (Some {| silent := true |})) as [result|e2];
      [destruct (host_RUNNER_TEMP h) as [[|d dir]|];
       cbn [truthy option_ToBoolean string_ToBoolean clockReads trace] in E;
       try destruct (host_writeFile h _ _)|];
      subst r; repeat split; count_trace.
Qed.

(** ** Each engine reads its own inputs only *)

(** X11.  What a [bake()] does depends on no input but the engine's own
    (the release name, chart, override files and overrides for Helm; the
    compose file for Kompose; the kustomization path for Kustomize): two
    sets of inputs that agree on those give the same outcome and the
    same trace. *)
Theorem bake_reads_own_inputs
        (h : Host) (inputs inputs' : string -> string)
        (renderEngine : EngineKind) (s : State) :
  (forall n, In n (engineInputs renderEngine) -> inputs n = inputs' n) ->
  bake (withInputs h inputs) renderEngine s = bake (withInputs h inputs') renderEngine s.
Proof.
  intros Hagree. destruct renderEngine; unfold bake.
  - assert (E1 : inputs "releaseName" = inputs' "releaseName") by (apply Hagree; simpl; auto).
    assert (E2 : inputs "helmChart" = inputs' "helmChart") by (apply Hagree; simpl; auto).
    assert (E3 : inputs "overrideFiles" = inputs' "overrideFiles")
      by (apply Hagree; simpl; auto).
    assert (E4 : inputs "overrides" = inputs' "overrides") by (apply Hagree; simpl; auto).
    unfold HelmRenderEngine.bake, HelmRenderEngine.getTemplateArgs, core.getInput.
    cbn [host_env_input withInputs]. rewrite E1, E2, E3, E4. reflexivity.
  - assert (E : inputs "dockerComposeFile" = inputs' "dockerComposeFile")
      by (apply Hagree; simpl; auto).
    unfold KomposeRenderEngine.bake, core.getInput.
    cbn [host_env_input withInputs]. rewrite E. reflexivity.
  - assert (E : inputs "kustomizationPath" = inputs' "kustomizationPath")
      by (apply Hagree; simpl; auto).
    unfold KustomizeRenderEngine.bake, core.getInput.
    cbn [host_env_input withInputs]. rewrite E. reflexivity.
Qed.

(** A Kustomize run is the same with a chart and a compose file among
    its inputs. *)
Lemma bake_reads_own_inputs_example :
  bake (withInputs kustomizeRunner (inputOf kustomizeInputs)) Kustomize initial
  = bake (withInputs kustomizeRunner (inputOf crowdedInputs)) Kustomize initial.
Proof.
  apply (bake_reads_own_inputs kustomizeRunner (inputOf kustomizeInputs)
           (inputOf crowdedInputs) Kustomize initial).
  intros n [<-|[]]; reflexivity.
Defined.

(** ** [main]: what the run reports *)

(** X12.  With a [renderEngine] input that selects an engine, the whole
    action never throws: it writes its two log lines and bakes; when
    [bake()] returns, nothing more happens, and when [bake()] throws an
    error, that one failure is reported through [core.setFailed] with the
    text [Error: Failed to run bake action. Error: ] followed by what
    [util.format] prints for the error: its text and, on a Node that
    prints them, its stack frames. *)
Theorem main_reports_bake_outcome (h : Host) (s : State) (renderEngine : EngineKind) :
  selectEngine (host_input h "renderEngine") s = (Returned renderEngine, s) ->
  main h s
  = match bake h renderEngine (afterRunLogs s) with
    | (Returned _, s') => (Returned tt, s')
    | (Thrown err, s') =>
        (Returned tt,
         failed s' ("Error: Failed to run bake action. Error: "
                      ++ errorToString err ++ host_stackFrames h err))
    end.
Proof.
  intros Hsel. unfold main, tryCatch at 1.
  rewrite (run_dispatches h s renderEngine Hsel). fold (afterRunLogs s).
  unfold runBake, tryCatch, throw.
  destruct (bake h renderEngine (afterRunLogs s)) as [[[]|err] s']; [reflexivity|].
  rewrite format_err_bake. reflexivity.
Qed.

(** kubectl 1.13 on a Node that prints stack frames: the failure the run
    reports. *)
Lemma main_reports_bake_outcome_example :
  main (withFrames oldKubectlRunner sampleFrames) initial
  = (Returned tt,
     {| clockReads := 0;
        trace :=
          [EConsoleLog "in run"; ECoreDebug "in run";
           EExec "/usr/bin/kubectl" versionArgs None;
           ESetFailed
             ("Error: Failed to run bake action. Error: Error: kubectl client version equal to v1.14 or higher is required to use kustomize features"
                ++ sampleFrames)] |}).
Proof.
  exact (main_reports_bake_outcome (withFrames oldKubectlRunner sampleFrames)
           initial Kustomize eq_refl).
Defined.

(** X13.  With a [renderEngine] input that is empty as the runner hands it
    over, the action reports the required-input error of [renderEngine],
    unwrapped, and does nothing else: no log line is written and no
    engine is looked at. *)
Theorem main_without_render_engine (h : Host) (s : State) :
  host_env_input h "renderEngine" = EmptyString ->
  main h s
  = (Returned tt, failed s "Error: Input required and not supplied: renderEngine").
Proof.
  intros Hinput. unfold main, tryCatch, run.
  rewrite (getInput_missing h "renderEngine" Hinput). reflexivity.
Qed.

(** A runner given no input at all. *)
Lemma main_without_render_engine_example :
  main (runner [] (fun _ => EmptyString) (Returned JNull)) initial
  = (Returned tt,
     {| clockReads := 0;
        trace := [ESetFailed "Error: Input required and not supplied: renderEngine"] |}).
Proof.
  exact (main_without_render_engine
           (runner [] (fun _ => EmptyString) (Returned JNull)) initial eq_refl).
Defined.

(** X18.  A [renderEngine] input that is not empty as the runner hands it
    over, and that after trimming is none of the three tags (white space
    only, say), is not reported as missing: the action writes the two log
    lines of [run] and reports [Error: Unknown render engine], which is
    none of the wrapped failures, whatever the Node at hand prints after
    an error. *)
Theorem main_with_unknown_engine (h : Host) (s : State) :
  host_env_input h "renderEngine" <> EmptyString ->
  host_input h "renderEngine" <> "helm2" ->
  host_input h "renderEngine" <> "kompose" ->
  host_input h "renderEngine" <> "kustomize" ->
  main h s = (Returned tt, failed (afterRunLogs s) "Error: Unknown render engine")
  /\ forall err, Error "Unknown render engine" <> wrappedFailure h err.
Proof.
  intros Hraw Hhelm Hkompose Hkustomize.
  split; [|intros err; unfold wrappedFailure; discriminate].
  rewrite (main_reports_failure h s (afterRunLogs s) (Error "Unknown render engine"));
    [reflexivity|].
  unfold run. rewrite (getInput_raw h "renderEngine" Hraw).
  unfold bind at 1, ret at 1.
  unfold bind at 1, console.log at 1, emit at 1.
  unfold bind at 1, core.debug at 1, emit at 1. cbn [clockReads trace].
  unfold bind at 1.
  destruct (engine_selection_cases (host_input h "renderEngine")
              {| clockReads := clockReads s;
                 trace := (trace s ++ [EConsoleLog "in run"]) ++ [ECoreDebug "in run"] |})
    as [[E _]|[[E _]|[[E _]|(_ & _ & _ & ->)]]]; try congruence.
  reflexivity.
Qed.

(** A [renderEngine] input of two blanks. *)
Lemma main_with_unknown_engine_example :
  main (runner [("renderEngine", "  ")] (fun _ => EmptyString) (Returned JNull)) initial
  = (Returned tt,
     {| clockReads := 0;
        trace := [EConsoleLog "in run"; ECoreDebug "in run";
                  ESetFailed "Error: Unknown render engine"] |}).
Proof.
  exact (proj1 (main_with_unknown_engine
                  (runner [("renderEngine", "  ")] (fun _ => EmptyString)
                          (Returned JNull))
                  initial ltac:(discriminate) ltac:(discriminate) ltac:(discriminate)
                  ltac:(discriminate))).
Defined.

(** ** The version check on decimal numbers *)

Lemma digits_string_of_uint (d : Decimal.uint) (tail : string) (acc : Z) :
  ParseInt.digits 10 (NilEmpty.string_of_uint d ++ tail) (Some acc)
  = ParseInt.digits 10 tail (Some (uintValue d acc)).
Proof.
  revert acc. induction d; intros acc; simpl NilEmpty.string_of_uint;
    [reflexivity| ..]; exact (IHd _).
Qed.

Lemma uintValue_pos (d : Decimal.uint) (acc : positive) :
  uintValue d (Zpos acc) = Zpos (Pos.of_uint_acc d acc).
Proof.
  revert acc. induction d; intros acc; cbn [uintValue Pos.of_uint_acc];
    [reflexivity| ..]; rewrite <- IHd; f_equal; lia.
Qed.

Lemma uintValue_zero (d : Decimal.uint) : uintValue d 0 = Z.of_N (Pos.of_uint d).
Proof.
  induction d; cbn [uintValue Pos.of_uint]; try reflexivity; try exact IHd;
    apply (uintValue_pos d).
Qed.

Lemma digits_plainSuffix (suffix : string) (acc : option Z) :
  plainSuffix suffix = true -> ParseInt.digits 10 suffix acc = acc.
Proof.
  destruct suffix as [|c rest]; [reflexivity|]. simpl.
  destruct (ParseInt.digitValue 10 c); [discriminate|reflexivity].
Qed.

Lemma to_uint_leading (p : positive) :
  Pos.to_uint p <> Decimal.Nil /\ forall l, Pos.to_uint p <> Decimal.D0 l.
Proof.
  split; [apply DecimalPos.Unsigned.to_uint_nonnil|]. intros l H.
  pose proof (DecimalPos.Unsigned.to_of (Pos.to_uint p)) as Hnorm.
  rewrite DecimalPos.Unsigned.of_to in Hnorm. simpl in Hnorm.
  assert (Hhead : Decimal.nzhead (Pos.to_uint p) <> Decimal.Nil).
  { intros Hnil. apply DecimalFacts.unorm_0 in Hnil. rewrite <- Hnorm in Hnil.
    exact (DecimalPos.Unsigned.to_uint_nonzero p Hnil). }
  rewrite (DecimalFacts.unorm_nzhead _ Hhead) in Hnorm.
  rewrite H in Hnorm at 1.
  exact (DecimalFacts.nzhead_nonzero _ _ (eq_sym Hnorm)).
Qed.

(** [parseInt] reads a natural number back from its decimal text, also
    when a plain suffix follows. *)
Lemma parseInt_numberToString (n : Z) (suffix : string) :
  (0 <= n)%Z -> plainSuffix suffix = true ->
  ParseInt.parseInt (numberToString n ++ suffix) = Some n.
Proof.
  intros Hn Hsuffix. destruct n as [|p|p]; [| |lia].
  - change (numberToString 0 ++ suffix)%string with (String "0" suffix).
    destruct suffix as [|c rest]; [reflexivity|].
    destruct c as [[] [] [] [] [] [] [] []];
      cbv in Hsuffix; try discriminate Hsuffix; reflexivity.
  - unfold numberToString. simpl Z.to_int. simpl NilEmpty.string_of_int.
    destruct (to_uint_leading p) as [Hnil Hzero].
    pose proof (uintValue_zero (Pos.to_uint p)) as Hvalue.
    rewrite DecimalPos.Unsigned.of_to in Hvalue. simpl Z.of_N in Hvalue.
    pose proof (fun acc => digits_string_of_uint (Pos.to_uint p) suffix acc) as Hdigits.
    destruct (Pos.to_uint p) as [|l|l|l|l|l|l|l|l|l|l];
      [congruence|elim (Hzero l); reflexivity| ..];
      unfold ParseInt.parseInt; simpl;
      simpl in Hvalue; simpl in Hdigits;
      rewrite digits_string_of_uint, (digits_plainSuffix _ _ Hsuffix), Hvalue;
      reflexivity.
Qed.

(** X14.  On a version document whose major and minor are natural numbers
    in decimal, each possibly followed by a plain suffix (as in the
    [14+] some kubectl builds print), the condition of the version check
    holds exactly when major >= 1 and minor >= 14: so every version 2.x
    with x < 14 is refused, and 1.14+ is accepted.  The same holds when
    the two are JSON numbers that are integers within the range in which
    a number is printed digit by digit and exactly (up to 2^53). *)
Theorem version_check_on_decimal_versions (M m : Z) (sM sm : string) :
  (0 <= M)%Z -> (0 <= m)%Z ->
  plainSuffix sM = true -> plainSuffix sm = true ->
  KustomizeRenderEngine.versionAccepted
    (versionText (numberToString M ++ sM) (numberToString m ++ sm))
  = Returned ((1 <=? M)%Z && (14 <=? m)%Z)
  /\ ((M <= 2 ^ 53)%Z -> (m <= 2 ^ 53)%Z ->
      KustomizeRenderEngine.versionAccepted
        (Some (JObj [("major", JNum (numberToString M));
                     ("minor", JNum (numberToString m))]))
      = Returned ((1 <=? M)%Z && (14 <=? m)%Z)).
Proof.
  intros HM Hm HsM Hsm.
  unfold KustomizeRenderEngine.versionAccepted, versionText.
  cbn [truthy json_ToBoolean getProp lookupField].
  change (String.eqb "major" "major") with true.
  change (String.eqb "major" "minor") with false.
  change (String.eqb "minor" "minor") with true.
  cbv iota. cbn [ToString jsonToString].
  rewrite !parseInt_numberToString by assumption.
  rewrite <- (append_empty_r (numberToString M)), <- (append_empty_r (numberToString m)).
  rewrite !parseInt_numberToString by (assumption || reflexivity).
  cbn [ParseInt.geq].
  split; [|intros _ _]; destruct (1 <=? M)%Z; reflexivity.
Qed.

(** Versions 1.14+ and 2.0 as texts, and 1.14 as numbers; a minor of
    10^21, which is printed [1e+21], reads as 1. *)
Lemma version_check_on_decimal_versions_example :
  KustomizeRenderEngine.versionAccepted (versionText "1" "14+") = Returned true
  /\ KustomizeRenderEngine.versionAccepted (versionText "2" "0") = Returned false
  /\ KustomizeRenderEngine.versionAccepted
       (Some (JObj [("major", JNum "1"); ("minor", JNum "14")])) = Returned true
  /\ KustomizeRenderEngine.versionAccepted
       (Some (JObj [("major", JNum "1"); ("minor", JNum "1e+21")])) = Returned false.
Proof.
  exact (conj
           (proj1 (version_check_on_decimal_versions 1 14 "" "+"
                     ltac:(lia) ltac:(lia) eq_refl eq_refl))
        (conj
           (proj1 (version_check_on_decimal_versions 2 0 "" ""
                     ltac:(lia) ltac:(lia) eq_refl eq_refl))
        (conj
           (proj2 (version_check_on_decimal_versions 1 14 "" ""
                     ltac:(lia) ltac:(lia) eq_refl eq_refl)
                  ltac:(lia) ltac:(lia))
           eq_refl))).
Defined.

(** X15.  When kubectl prints a version document that has no
    [clientVersion] (or a falsy one), the Kustomize [bake()] throws the
    unsupported-client-version error, the version query being all that
    has happened. *)
Theorem kustomize_refuses_document_without_clientVersion
        (h : Host) (kubectlPath : string) (s : State) (out : ExecResult) (parsed : json) :
  host_kubectlPath h = Returned kubectlPath ->
  host_exec h kubectlPath versionArgs None = Returned out ->
  stdout out <> EmptyString ->
  host_JSON_parse h (stdout out) = Returned parsed ->
  parsed <> JNull ->
  truthy (getProp parsed "clientVersion") = false ->
  KustomizeRenderEngine.bake h s
  = (Thrown unsupportedClientVersion, spawned s kubectlPath versionArgs None).
Proof.
  intros Hkubectl Hexec Hout Hparse Hnull Hcv.
  unfold KustomizeRenderEngine.bake, getKubectlPath.
  unfold bind at 1, await at 1. rewrite Hkubectl.
  unfold bind at 1.
  now rewrite (version_gate_without_clientVersion h kubectlPath s out parsed
                 Hexec Hout Hparse Hnull Hcv).
Qed.

(** A kubectl that only reports a server version. *)
Lemma kustomize_refuses_document_without_clientVersion_example :
  KustomizeRenderEngine.bake serverOnlyRunner initial
  = (Thrown unsupportedClientVersion,
     {| clockReads := 0; trace := [EExec "/usr/bin/kubectl" versionArgs None] |}).
Proof.
  exact (kustomize_refuses_document_without_clientVersion
           serverOnlyRunner "/usr/bin/kubectl" initial
           {| stdout := "{...}"; stderr := "" |}
           (JObj [("serverVersion", JObj [("major", JStr "1"); ("minor", JStr "20")])])
           eq_refl eq_refl ltac:(discriminate) eq_refl ltac:(discriminate) eq_refl).
Defined.

(** X16.  When kubectl's version output is not JSON, the Kustomize run
    fails with the parser's own error, wrapped by [run] and reported
    once, with the stack frames [util.format] prints for it on the Node
    at hand: it is not turned into the unsupported-version error, and
    nothing but the version query has been spawned. *)
Theorem unparsable_version_output_reported
        (h : Host) (s : State) (kubectlPath : string) (out : ExecResult) (err : JsError) :
  host_input h "renderEngine" = "kustomize" ->
  host_kubectlPath h = Returned kubectlPath ->
  host_exec h kubectlPath versionArgs None = Returned out ->
  stdout out <> EmptyString ->
  host_JSON_parse h (stdout out) = Thrown err ->
  main h s
  = (Returned tt,
     failed (spawned (afterRunLogs s) kubectlPath versionArgs None)
            ("Error: Failed to run bake action. Error: "
               ++ errorToString err ++ host_stackFrames h err)).
Proof.
  intros Hengine Hkubectl Hexec Hout Hparse.
  assert (Hsel : selectEngine (host_input h "renderEngine") s = (Returned Kustomize, s))
    by now rewrite Hengine.
  unfold main, tryCatch at 1.
  rewrite (run_dispatches h s Kustomize Hsel). fold (afterRunLogs s).
  unfold runBake, tryCatch, bake, throw.
  unfold KustomizeRenderEngine.bake, getKubectlPath.
  unfold bind at 1, await at 1. rewrite Hkubectl.
  unfold bind at 1.
  unfold KustomizeRenderEngine.validateKustomize, awaiting, utilities.execCommand,
    bind, emit, ret, await, JSON.parse.
  fold versionArgs. rewrite Hexec.
  destruct (stdout out) as [|c text] eqn:Eout; [congruence|].
  cbn [truthy string_ToBoolean]. rewrite Hparse.
  rewrite format_err_bake. reflexivity.
Qed.

(** A kubectl whose version output is not JSON, on a Node that prints
    stack frames. *)
Lemma unparsable_version_output_example :
  main (withFrames garbledRunner sampleFrames) initial
  = (Returned tt,
     {| clockReads := 0;
        trace :=
          [EConsoleLog "in run"; ECoreDebug "in run";
           EExec "/usr/bin/kubectl" versionArgs None;
           ESetFailed
             ("Error: Failed to run bake action. Error: SyntaxError: Unexpected token . in JSON at position 1"
                ++ sampleFrames)] |}).
Proof.
  exact (unparsable_version_output_reported
           (withFrames garbledRunner sampleFrames) initial "/usr/bin/kubectl"
           {| stdout := "{...}"; stderr := "" |}
           (mkJsError "SyntaxError" "Unexpected token . in JSON at position 1")
           eq_refl eq_refl eq_refl ltac:(discriminate) eq_refl).
Defined.

(** ** The errors of the steps of a [bake()] reach the [catch] of [run] *)

(** Settles what the host equations at hand say about one another. *)
Ltac host_facts :=
  repeat match goal with
         | Ht : truthy (host_RUNNER_TEMP ?h) = false, Hs : host_RUNNER_TEMP ?h = _ |- _ =>
             rewrite Hs in Ht; cbn in Ht; try discriminate Ht
         | Hp : host_kubectlPath ?h = Returned ?p, Hq : host_kubectlPath ?h = Returned ?q
           |- _ =>
             rewrite Hp in Hq; injection Hq as <-
         end.

Lemma kompose_bake_throws_iff (h : Host) (s s' : State) (err : JsError) :
  KomposeRenderEngine.bake h s = (Thrown err, s') <-> raises h Kompose s err s'.
Proof.
  unfold KomposeRenderEngine.bake, getKomposePath.
  destruct (String.string_dec (host_env_input h "dockerComposeFile") EmptyString)
    as [Hfile|Hfile].
  { rewrite (getInput_missing h "dockerComposeFile" Hfile). unfold bind, throw.
    split.
    - intros H. injection H as <- <-. now constructor.
    - intros H. inversion H; subst; first [reflexivity|congruence]. }
  rewrite (getInput_raw h "dockerComposeFile" Hfile).
  cbn [negb truthy Promise_ToBoolean].
  unfold RenderEngine.getTemplatePath, awaiting, utilities.execCommand,
    utilities.getCurrentTime, core.setOutput, core.debug,
    bind, emit, ret, throw, await.
  destruct (host_komposePath h) as [komposePath|e1] eqn:Hkompose.
  2:{ split.
      - intros H. injection H as <- <-. now constructor.
      - intros H. inversion H; subst; first [reflexivity|congruence]. }
  destruct (host_RUNNER_TEMP h) as [[|d dir]|] eqn:Htemp.
  1,3: split;
    [ intros H; injection H as <- <-;
      apply (@raises_kompose_scratch h s komposePath); try assumption;
      now rewrite Htemp
    | intros H; inversion H; subst; first [reflexivity|congruence] ].
  cbn [truthy option_ToBoolean string_ToBoolean clockReads trace].
  fold (bakedName (host_clock h (clockReads s))).
  fold (bakedPath h s (String d dir)).
  destruct (host_exec h komposePath
              ["convert"; "-f"; host_input h "dockerComposeFile"; "-o";
               bakedPath h s (String d dir)] None)
    as [result|e2] eqn:Hexec.
  - split; [intros H; discriminate H|].
    intros H. inversion H; subst; host_facts; first [reflexivity|congruence].
  - split.
    + intros H. injection H as <- <-. flatten_trace.
      apply (@raises_kompose_exec h s komposePath (String d dir) e2);
        (assumption || discriminate).
    + intros H. inversion H; subst; host_facts; flatten_trace; first [reflexivity|congruence].
Qed.

Lemma kustomize_bake_throws_iff (h : Host) (s s' : State) (err : JsError) :
  KustomizeRenderEngine.bake h s = (Thrown err, s') <-> raises h Kustomize s err s'.
Proof.
  unfold KustomizeRenderEngine.bake, getKubectlPath.
  unfold bind at 1, await at 1.
  destruct (host_kubectlPath h) as [kubectlPath|e0] eqn:Hkubectl.
  2:{ split.
      - intros H. injection H as <- <-. now constructor.
      - intros H. inversion H; subst; first [reflexivity|congruence]. }
  unfold bind at 1. rewrite validateKustomize_outcome.
  destruct (fst (KustomizeRenderEngine.validateKustomize h kubectlPath s))
    as [[]|e1] eqn:Hcheck.
  2:{ split.
      - intros H. injection H as <- <-. now constructor.
      - intros H. inversion H; subst; host_facts; first [reflexivity|congruence]. }
  destruct (String.string_dec (host_env_input h "kustomizationPath") EmptyString)
    as [Hinput|Hinput].
  { rewrite (getInput_missing h "kustomizationPath" Hinput). unfold bind, throw.
    split.
    - intros H. injection H as <- <-. now constructor.
    - intros H. inversion H; subst; host_facts; first [reflexivity|congruence]. }
  rewrite (getInput_raw h "kustomizationPath" Hinput), getInput_optional.
  cbn [negb truthy Promise_ToBoolean].
  unfold RenderEngine.getTemplatePath, awaiting, utilities.execCommand,
    utilities.getCurrentTime, fs.writeFileSync, core.setOutput, core.debug,
    console.log, bind, emit, ret, throw, await, spawned.
  cbn [clockReads trace].
  destruct (host_exec h kubectlPath ["kustomize"; host_input h "kustomizationPath"]
              (Some {| silent := true |})) as [result|e2] eqn:Hexec.
  2:{ split.
      - intros H. injection H as <- <-. flatten_trace. now constructor.
      - intros H. inversion H; subst; host_facts; unfold spawned; flatten_trace; first [reflexivity|congruence]. }
  destruct (host_RUNNER_TEMP h) as [[|d dir]|] eqn:Htemp.
  1,3: split;
    [ intros H; injection H as <- <-; flatten_trace;
      apply (@raises_kustomize_scratch h s kubectlPath result); try assumption;
      now rewrite Htemp
    | intros H; inversion H; subst; host_facts; unfold spawned; flatten_trace; first [reflexivity|congruence] ].
  cbn [truthy option_ToBoolean string_ToBoolean clockReads trace].
  fold (bakedName (host_clock h (clockReads s))).
  fold (bakedPath h s (String d dir)).
  destruct (host_writeFile h (bakedPath h s (String d dir)) (stdout result))
    as [[]|e3] eqn:Hwrite.
  - split; [intros H; discriminate H|].
    intros H. inversion H; subst; host_facts; first [reflexivity|congruence].
  - split.
    + intros H. injection H as <- <-. flatten_trace.
      apply (@raises_kustomize_write h s kubectlPath (String d dir) result e3);
        (assumption || discriminate).
    + intros H. inversion H; subst; host_facts; unfold spawned; flatten_trace; first [reflexivity|congruence].
Qed.

(** [bake()] throws exactly the errors of its steps, each in the state
    the failing step leaves. *)
Lemma bake_throws_iff (h : Host) (renderEngine : EngineKind) (s s' : State)
      (err : JsError) :
  bake h renderEngine s = (Thrown err, s') <-> raises h renderEngine s err s'.
Proof.
  destruct renderEngine; unfold bake.
  - rewrite helm_bake_throws. split.
    + intros H. injection H as <- <-. constructor.
    + intros H. now inversion H.
  - apply kompose_bake_throws_iff.
  - apply kustomize_bake_throws_iff.
Qed.

(** X17.  The error of a step of [bake()] reaches the [catch] of [run] at
    once: the steps before it have run once each, no step after it runs
    and none is tried again, so the state is the one the failing step
    left; [run] throws the error wrapped as
    [Failed to run bake action. Error: ] followed by what [util.format]
    prints for it, and no output has been reported. *)
Theorem step_error_reaches_catch
        (h : Host) (renderEngine : EngineKind) (s s' : State) (err : JsError) :
  raises h renderEngine s err s' ->
  bake h renderEngine s = (Thrown err, s')
  /\ runBake h renderEngine s = (Thrown (wrappedFailure h err), s')
  /\ outputs (trace s') = outputs (trace s).
Proof.
  intros Hstep. apply bake_throws_iff in Hstep.
  pose proof (runBake_outcome h renderEngine s) as Hrun.
  rewrite Hstep in Hrun. destruct Hrun as [Hrun Hout].
  now repeat split.
Qed.

(** A Kompose that ends with exit code 1. *)
Lemma step_error_reaches_catch_example :
  let s' := {| clockReads := 1;
               trace :=
                 [ECoreDebug "Running kompose command..";
                  EExec "/usr/bin/kompose"
                        ["convert"; "-f"; "missing/docker-compose.yml"; "-o";
                         "/home/runner/work/_temp/baked-template-1700000000000.yaml"]
                        None] |} in
  bake failingKomposeRunner Kompose initial
  = (Thrown (exitCode1 "/usr/bin/kompose"), s')
  /\ runBake failingKomposeRunner Kompose initial
     = (Thrown (Error "Failed to run bake action. Error: Error: The process '/usr/bin/kompose' failed with exit code 1"),
        s')
  /\ outputs (trace s') = [].
Proof.
  exact (step_error_reaches_catch failingKomposeRunner Kompose initial _ _
           (@raises_kompose_exec failingKomposeRunner initial
              "/usr/bin/kompose" "/home/runner/work/_temp"
              (exitCode1 "/usr/bin/kompose")
              ltac:(discriminate) eq_refl eq_refl ltac:(discriminate) eq_refl)).
Defined.

(** X19.  [bake()] throws no error of its own: whatever it throws is the
    error of one of its steps, in the state that step left.  The two
    guards on [ioUtil.exists] are no source of errors. *)
Theorem bake_throws_step_errors_only
        (h : Host) (renderEngine : EngineKind) (s s' : State) (err : JsError) :
  bake h renderEngine s = (Thrown err, s') ->
  raises h renderEngine s err s'.
Proof. intros Hbake. now apply bake_throws_iff. Qed.

(** kubectl 1.13: the error is that of the version check. *)
Lemma bake_throws_step_errors_only_example :
  raises oldKubectlRunner Kustomize initial unsupportedClientVersion
         {| clockReads := 0; trace := [EExec "/usr/bin/kubectl" versionArgs None] |}.
Proof.
  exact (bake_throws_step_errors_only oldKubectlRunner Kustomize initial _ _ eq_refl).
Defined.

(** ** The version check on a document that cannot be read as text *)

(** X20.  When [major] of the client version cannot be converted to a
    string (an object with a [toString] field of its own), the version
    check throws the [TypeError] of the conversion, not the
    unsupported-client-version error; the version query is all that has
    happened. *)
Theorem version_gate_conversion_error
        (h : Host) (kubectlPath : string) (s : State)
        (out : ExecResult) (parsed cv : json) (err : JsError) :
  host_exec h kubectlPath versionArgs None = Returned out ->
  stdout out <> EmptyString ->
  host_JSON_parse h (stdout out) = Returned parsed ->
  getProp parsed "clientVersion" = Some cv ->
  truthy cv = true ->
  ToString (getProp cv "major") = Thrown err ->
  KustomizeRenderEngine.validateKustomize h kubectlPath s
  = (Thrown err, spawned s kubectlPath versionArgs None).
Proof.
  intros Hexec Hout Hparse Hcv Htruthy Hmajor.
  unfold KustomizeRenderEngine.validateKustomize, awaiting, utilities.execCommand,
    bind, emit, ret, await, JSON.parse, KustomizeRenderEngine.clientVersionOf, evaluate.
  fold versionArgs. rewrite Hexec.
  destruct (stdout out) as [|c text] eqn:Eout; [congruence|].
  cbn [truthy string_ToBoolean]. rewrite Hparse.
  destruct parsed; try discriminate Hcv.
  unfold ret. rewrite Hcv.
  unfold KustomizeRenderEngine.versionAccepted. rewrite Htruthy, Hmajor.
  reflexivity.
Qed.

(** A version document whose [major] is an object with a [toString]
    field. *)
Lemma version_gate_conversion_error_example :
  KustomizeRenderEngine.validateKustomize oddVersionRunner "/usr/bin/kubectl" initial
  = (Thrown notPrimitive,
     {| clockReads := 0; trace := [EExec "/usr/bin/kubectl" versionArgs None] |}).
Proof.
  exact (version_gate_conversion_error oddVersionRunner "/usr/bin/kubectl" initial
           {| stdout := "{...}"; stderr := "" |}
           (JObj [("clientVersion", oddVersion)]) oddVersion notPrimitive
           eq_refl ltac:(discriminate) eq_refl eq_refl eq_refl eq_refl).
Defined.
